(** * TinyLink: a shallow embedding of [index.js] and its properties

    The server is an Express application over a Postgres table [links].
    Strings are sequences of 8-bit code units (the Latin-1 range of a
    JavaScript string); timestamps and counters are integers; the
    database is an explicit state threaded through a small state and
    exception monad, with a fault schedule standing for the failures
    the driver can throw; the lower-casing of the database, which
    depends on its locale, is a parameter. *)

From Stdlib Require Import Bool Arith ZArith Lia List Ascii String.
From Stdlib Require Import Permutation Sorted.
Import ListNotations.

Local Open Scope string_scope.
Local Open Scope Z_scope.

(** ** Characters and strings *)

Module Js.

(** Code units that [String.prototype.trim] removes, in the modelled
    range: TAB, LF, VT, FF, CR, SPACE and NBSP. *)
Definition is_space (c : ascii) : bool :=
  let n := nat_of_ascii c in
  ((9 <=? n) && (n <=? 13) || (n =? 32) || (n =? 160))%nat.

Definition is_upper (c : ascii) : bool :=
  let n := nat_of_ascii c in ((65 <=? n) && (n <=? 90))%nat.

Definition is_lower (c : ascii) : bool :=
  let n := nat_of_ascii c in ((97 <=? n) && (n <=? 122))%nat.

Definition is_digit (c : ascii) : bool :=
  let n := nat_of_ascii c in ((48 <=? n) && (n <=? 57))%nat.

(** The character class [[A-Za-z0-9]]. *)
Definition is_alnum (c : ascii) : bool :=
  is_upper c || is_lower c || is_digit c.

(** Case folding of the ASCII letters; the other code units are fixed. *)
Definition lower (c : ascii) : ascii :=
  if is_upper c then ascii_of_nat (nat_of_ascii c + 32) else c.

(** Equality of two code units under the [i] flag. *)
Definition eq_ci (a b : ascii) : bool := Ascii.eqb (lower a) (lower b).

Definition is_empty (s : string) : bool :=
  match s with EmptyString => true | String _ _ => false end.

(** [s.trimStart()] *)
Fixpoint trim_start (s : string) : string :=
  match s with
  | EmptyString => EmptyString
  | String c s' => if is_space c then trim_start s' else s
  end.

(** [s.trimEnd()] *)
Fixpoint trim_end (s : string) : string :=
  match s with
  | EmptyString => EmptyString
  | String c s' =>
      let r := trim_end s' in
      if is_space c && is_empty r then EmptyString else String c r
  end.

(** [s.trim()] *)
Definition trim (s : string) : string := trim_end (trim_start s).

Fixpoint all_chars (p : ascii -> bool) (s : string) : bool :=
  match s with
  | EmptyString => true
  | String c s' => p c && all_chars p s'
  end.

(** A value is truthy when it is a non-empty string; [None] stands for
    [undefined]. *)
Definition truthy (v : option string) : bool :=
  match v with
  | Some s => negb (is_empty s)
  | None => false
  end.

(** [a || b] on optional strings. *)
Definition or_else (a b : option string) : option string :=
  if truthy a then a else b.

End Js.

(** ** Regular expressions

    The two patterns of the source are run by a backtracking matcher
    with a continuation, greedy as in ECMAScript. *)

Module Regex.

Inductive re : Type :=
| Chr (p : ascii -> bool)
| Cat (r1 r2 : re)
| Opt (r : re)
| Rep (r : re) (lo hi : nat).

Fixpoint run (r : re) (s : string) (k : string -> bool) {struct r} : bool :=
  match r with
  | Chr p =>
      match s with
      | EmptyString => false
      | String c s' => p c && k s'
      end
  | Cat r1 r2 => run r1 s (fun s' => run r2 s' k)
  | Opt r1 => run r1 s k || k s
  | Rep r1 lo hi =>
      (fix go (lo hi : nat) (s : string) {struct hi} : bool :=
         match hi with
         | O => (lo =? 0)%nat && k s
         | S hi' =>
             run r1 s (fun s' => go (Nat.pred lo) hi' s')
             || ((lo =? 0)%nat && k s)
         end) lo hi s
  end.

(** [/^r/.test(s)] *)
Definition test_prefix (r : re) (s : string) : bool :=
  run r s (fun _ => true).

(** [/^r$/.test(s)] *)
Definition test_whole (r : re) (s : string) : bool :=
  run r s Js.is_empty.

(** A literal character under the [i] flag. *)
Definition lit_ci (c : ascii) : re := Chr (Js.eq_ci c).

End Regex.

(** ** Helpers of [index.js] *)

(** [/^https?:\/\//i] *)
Definition scheme_re : Regex.re :=
  Regex.Cat (Regex.lit_ci "h")
    (Regex.Cat (Regex.lit_ci "t")
       (Regex.Cat (Regex.lit_ci "t")
          (Regex.Cat (Regex.lit_ci "p")
             (Regex.Cat (Regex.Opt (Regex.lit_ci "s"))
                (Regex.Cat (Regex.lit_ci ":")
                   (Regex.Cat (Regex.lit_ci "/") (Regex.lit_ci "/"))))))).

(** [/^[A-Za-z0-9]{6,8}$/] *)
Definition code_re : Regex.re := Regex.Rep (Regex.Chr Js.is_alnum) 6 8.

(** [isValidCode(code)] *)
Definition isValidCode (code : string) : bool := Regex.test_whole code_re code.

Section Normalize.

(** Whether [new URL(s)] returns rather than throws.  The WHATWG parser
    belongs to the platform and is a parameter of the development. *)
Variable URL_parses : string -> bool.

(** [normalizeUrl(raw)] *)
Definition normalizeUrl (raw : option string) : option string :=
  match raw with
  | None => None
  | Some r =>
      if Js.is_empty r then None
      else
        let urlStr := Js.trim r in
        let urlStr :=
          if negb (Regex.test_prefix scheme_re urlStr)
          then "https://" ++ urlStr else urlStr in
        if URL_parses urlStr then Some urlStr else None
  end.

End Normalize.

(** ** The table [links] *)

(** A row of [links], with the columns the queries name. *)
Record row : Type := mkRow {
  id : Z;
  code : string;
  original_url : string;
  click_count : Z;
  last_clicked_at : option Z;
  created_at : Z
}.

Definition table : Type := list row.

Definition has_code (c : string) (r : row) : bool := String.eqb (code r) c.

Definition has_id (i : Z) (r : row) : bool := Z.eqb (id r) i.

(** Modelled from the spec: the declaration of the table [links] is not
    among the sources.  [id] is an opaque unique identifier assigned at
    creation; here, one more than the largest in the table. *)
Definition fresh_id (t : table) : Z :=
  1 + fold_right Z.max 0 (map id t).

(** Modelled from the spec: the defaults of the columns that the
    [INSERT] of the server does not name.  A new record has
    [clickCount = 0], [lastClickedAt = null] and [createdAt = now]. *)
Definition new_row (t : table) (now : Z) (c u : string) : row :=
  {| id := fresh_id t; code := c; original_url := u;
     click_count := 0; last_clicked_at := None; created_at := now |}.

(** Modelled from the spec: [code] is unique among the links, so that an
    [INSERT] of a code some link has is a violation (SQLSTATE 23505, the
    one the creation route looks for). *)
Definition code_taken (c : string) (t : table) : bool :=
  existsb (has_code c) t.

(** [SET click_count = click_count + 1, last_clicked_at = NOW()] *)
Definition click (now : Z) (r : row) : row :=
  {| id := id r; code := code r; original_url := original_url r;
     click_count := click_count r + 1; last_clicked_at := Some now;
     created_at := created_at r |}.

(** [ORDER BY created_at DESC]; rows of equal [created_at] keep the order
    of the table, which Postgres leaves unspecified. *)
Fixpoint insert_desc (r : row) (l : list row) : list row :=
  match l with
  | [] => [r]
  | x :: l' =>
      if created_at x <? created_at r then r :: l
      else x :: insert_desc r l'
  end.

Definition order_desc (l : list row) : list row :=
  fold_right insert_desc [] l.

(** ** [ILIKE] *)

Module Like.

Inductive tok : Type :=
| Any              (* % *)
| One              (* _ *)
| Lit (c : ascii).

(** A pattern is read left to right; a backslash quotes the next
    character, and a pattern ending in a lone backslash is an error. *)
Fixpoint parse (p : string) : option (list tok) :=
  match p with
  | EmptyString => Some []
  | String c p' =>
      if Ascii.eqb c "%" then option_map (cons Any) (parse p')
      else if Ascii.eqb c "_" then option_map (cons One) (parse p')
      else if Ascii.eqb c "\" then
        match p' with
        | EmptyString => None
        | String d p'' => option_map (cons (Lit d)) (parse p'')
        end
      else option_map (cons (Lit c)) (parse p')
  end.

(** [fold] is the lower-casing of the database: [ILIKE] takes two
    characters for the same when it sends them to the same one. *)
Fixpoint matches (fold : ascii -> ascii) (p : list tok) (s : string)
    {struct p} : bool :=
  match p with
  | [] => Js.is_empty s
  | Any :: p' =>
      (fix skip (s : string) : bool :=
         matches fold p' s
         || match s with
            | EmptyString => false
            | String _ s' => skip s'
            end) s
  | One :: p' =>
      match s with
      | EmptyString => false
      | String _ s' => matches fold p' s'
      end
  | Lit c :: p' =>
      match s with
      | EmptyString => false
      | String d s' => Ascii.eqb (fold c) (fold d) && matches fold p' s'
      end
  end.

(** The characters with a meaning of their own in a pattern. *)
Definition is_meta (c : ascii) : bool :=
  Ascii.eqb c "%" || Ascii.eqb c "_" || Ascii.eqb c "\".

End Like.

(** ** The database connection *)

Module Pg.

(** The statements the server sends. *)
Inductive stmt : Type :=
| Begin
| Commit
| Rollback
| InsertLink (c u : string)
| SelectAll
| SelectSearch (pattern : string)
| SelectByCode (c : string)
| DeleteByCode (c : string)
| SelectForUpdate (c : string)
| UpdateClick (i : Z).

Inductive event : Type :=
| Connect
| Release
| Query (q : stmt).

(** What a rejected promise carries: an error of the server with its
    SQLSTATE, a failure of the driver (no connection, timeout), or a
    [TypeError] of the handler itself. *)
Inductive error : Type :=
| SqlState (sqlstate : string)
| Failure
| TypeError.

(** [err.code === "23505"] *)
Definition is_unique_violation (e : error) : bool :=
  match e with
  | SqlState s => String.eqb s "23505"
  | _ => false
  end.

(** How a call to the driver goes: it succeeds; it is refused, and fails
    with the server having done nothing; or its answer is lost, and it
    fails with the server having done what it was asked. *)
Inductive fault : Type :=
| Fine
| Refused
| Lost.

(** The state of the store as one session sees it: the committed table,
    the working copy of the open transaction if there is one, the faults
    still to come (one for each call to the driver), and the calls made so
    far, latest first. *)
Record state : Type := mkState {
  committed : table;
  txn : option table;
  faults : list fault;
  log : list event
}.

Record result : Type := mkResult {
  rows : list row;
  rowCount : nat
}.

Inductive outcome (A : Type) : Type :=
| Ok (a : A)
| Throw (e : error).
Arguments Ok {A} a.
Arguments Throw {A} e.

(** An asynchronous computation over the store. *)
Definition M (A : Type) : Type := state -> outcome A * state.

Definition ret {A} (a : A) : M A := fun w => (Ok a, w).

Definition throw {A} (e : error) : M A := fun w => (Throw e, w).

Definition bind {A B} (m : M A) (f : A -> M B) : M B :=
  fun w =>
    match m w with
    | (Ok a, w') => f a w'
    | (Throw e, w') => (Throw e, w')
    end.

(** [try { m } catch (err) { h err }] *)
Definition try_catch {A} (m : M A) (h : error -> M A) : M A :=
  fun w =>
    match m w with
    | (Ok a, w') => (Ok a, w')
    | (Throw e, w') => h e w'
    end.

(** [try { m } finally { f }] *)
Definition finally {A} (m : M A) (f : M unit) : M A :=
  fun w =>
    let (r, w') := m w in
    match f w' with
    | (Ok _, w'') => (r, w'')
    | (Throw e, w'') => (Throw e, w'')
    end.

Declare Scope pg_scope.
Delimit Scope pg_scope with pg.
Notation "x <- m ;; k" := (bind m (fun x => k))
  (at level 100, m at next level, right associativity) : pg_scope.
Notation "m ;; k" := (bind m (fun _ => k))
  (at level 100, right associativity) : pg_scope.

(** The table a statement reads and writes. *)
Definition view (w : state) : table :=
  match txn w with
  | Some t => t
  | None => committed w
  end.

Definition put (t : table) (w : state) : state :=
  match txn w with
  | Some _ => mkState (committed w) (Some t) (faults w) (log w)
  | None => mkState t None (faults w) (log w)
  end.

(** A call to the driver: it is logged, and it goes as the schedule
    says; with no fault left it succeeds. *)
Definition call (e : event) : M fault :=
  fun w =>
    match faults w with
    | f :: fs => (Ok f, mkState (committed w) (txn w) fs (e :: log w))
    | [] => (Ok Fine, mkState (committed w) (txn w) [] (e :: log w))
    end.

Definition ilike (fold : ascii -> ascii) (p : list Like.tok) (r : row)
  : bool :=
  Like.matches fold p (code r) || Like.matches fold p (original_url r).

(** What the server does with a statement, on the table the session
    sees. *)
Definition exec (fold : ascii -> ascii) (now : Z) (q : stmt) : M result :=
  fun w =>
    let t := view w in
    match q with
    | Begin =>
        (Ok (mkResult [] 0),
         match txn w with
         | Some _ => w
         | None => mkState (committed w) (Some (committed w)) (faults w) (log w)
         end)
    | Commit =>
        (Ok (mkResult [] 0), mkState t None (faults w) (log w))
    | Rollback =>
        (Ok (mkResult [] 0), mkState (committed w) None (faults w) (log w))
    | InsertLink c u =>
        if code_taken c t then (Throw (SqlState "23505"), w)
        else
          let r := new_row t now c u in
          (Ok (mkResult [r] 1), put (t ++ [r])%list w)
    | SelectAll =>
        let rs := order_desc t in (Ok (mkResult rs (List.length rs)), w)
    | SelectSearch pattern =>
        match Like.parse pattern with
        | None => (Throw (SqlState "22025"), w)
        | Some p =>
            let rs := order_desc (filter (ilike fold p) t) in
            (Ok (mkResult rs (List.length rs)), w)
        end
    | SelectByCode c | SelectForUpdate c =>
        let rs := filter (has_code c) t in (Ok (mkResult rs (List.length rs)), w)
    | DeleteByCode c =>
        (Ok (mkResult [] (List.length (filter (has_code c) t))),
         put (filter (fun r => negb (has_code c r)) t) w)
    | UpdateClick i =>
        (Ok (mkResult [] (List.length (filter (has_id i) t))),
         put (map (fun r => if has_id i r then click now r else r) t) w)
    end.

(** [pool.query(q)] and [client.query(q)]: when the answer is lost the
    server has run the statement and the promise is rejected all the
    same. *)
Definition query (fold : ascii -> ascii) (now : Z) (q : stmt) : M result :=
  (f <- call (Query q) ;;
   match f with
   | Fine => exec fold now q
   | Refused => throw Failure
   | Lost => fun w => (Throw Failure, snd (exec fold now q w))
   end)%pg.

(** [pool.connect()] *)
Definition connect : M unit :=
  (f <- call Connect ;;
   match f with
   | Fine => ret tt
   | Refused | Lost => throw Failure
   end)%pg.

(** [client.release()], which does not fail. *)
Definition release : M unit :=
  fun w => (Ok tt, mkState (committed w) (txn w) (faults w) (Release :: log w)).

End Pg.

(** ** Requests and responses *)

Module Api.

(** The JSON shape of a link in the responses. *)
Record link : Type := mkLink {
  code : string;
  shortUrl : string;
  originalUrl : string;
  clickCount : Z;
  lastClickedAt : option Z;
  createdAt : Z
}.

End Api.

Module Req.

(** The body of [POST /api/links]; [None] is an absent field. *)
Record body : Type := mkBody {
  url : option string;
  targetUrl : option string;
  originalUrl : option string;
  code : option string
}.

End Req.

Inductive json : Type :=
| JError (error : string)
| JLink (l : Api.link)
| JLinks (ls : list Api.link)
| JOk.

Inductive response : Type :=
| Json (status : Z) (body : json)
| Send (status : Z) (text : string)
| Redirect (status : Z) (location : string).

Inductive request : Type :=
| PostLinks (b : Req.body)
| GetLinks (search : option string)
| GetLink (c : string)
| DeleteLink (c : string)
| GetCode (c : string).

(** ** The routes of [index.js] *)

(** [customCode ? customCode.trim() : generateCode()] *)
Definition pick_code (customCode : option string) (generated : string)
  : string :=
  match customCode with
  | Some c => if Js.truthy customCode then Js.trim c else generated
  | None => generated
  end.

(** [(req.query.search || "").trim()] *)
Definition search_term (search_param : option string) : string :=
  Js.trim (match Js.or_else search_param (Some "") with
           | Some s => s
           | None => ""
           end).

Section Server.

Import Pg.
Local Open Scope pg_scope.

Variable URL_parses : string -> bool.

(** The lower-casing of the database, for [ILIKE]. *)
Variable fold : ascii -> ascii.

(** [process.env.BASE_URL] *)
Variable BASE_URL : option string.

(** The time of the request, which [NOW()] returns. *)
Variable now : Z.

(** The object every route builds from a row. *)
Definition shape (r : row) : Api.link :=
  let base := match Js.or_else BASE_URL (Some "") with
              | Some b => b
              | None => ""
              end in
  {| Api.code := code r;
     Api.shortUrl := base ++ "/" ++ code r;
     Api.originalUrl := original_url r;
     Api.clickCount := click_count r;
     Api.lastClickedAt := last_clicked_at r;
     Api.createdAt := created_at r |}.

Definition internal_error : response :=
  Json 500 (JError "Internal server error").

(** [result.rows[0]], whose fields are read next: an empty result makes
    the read throw. *)
Definition first_row (res : result) : M row :=
  match rows res with
  | r :: _ => ret r
  | [] => throw TypeError
  end.

(** [app.post("/api/links")]; [generated] is what [generateCode()] returns
    when it is called. *)
Definition post_links (generated : string) (b : Req.body) : M response :=
  try_catch
    (let customCode := Req.code b in
     let longUrl :=
       Js.or_else (Js.or_else (Req.url b) (Req.targetUrl b))
                  (Req.originalUrl b) in
     match normalizeUrl URL_parses longUrl with
     | None => ret (Json 400 (JError "Invalid URL"))
     | Some normalized =>
         let code := pick_code customCode generated in
         if negb (isValidCode code) then
           ret (Json 400
                  (JError "Code must be 6–8 characters, letters and numbers only"))
         else
           try_catch
             (result <- query fold now (InsertLink code normalized) ;;
              link <- first_row result ;;
              ret (Json 201 (JLink (shape link))))
             (fun err =>
                if is_unique_violation err then
                  ret (Json 409 (JError "Code already exists"))
                else ret internal_error)
     end)
    (fun _ => ret internal_error).

(** [app.get("/api/links")] *)
Definition get_links (search_param : option string) : M response :=
  try_catch
    (let search := search_term search_param in
     let q :=
       if negb (Js.is_empty search)
       then SelectSearch ("%" ++ search ++ "%")
       else SelectAll in
     result <- query fold now q ;;
     ret (Json 200 (JLinks (map shape (rows result)))))
    (fun _ => ret internal_error).

(** [app.get("/api/links/:code")] *)
Definition get_link (c : string) : M response :=
  try_catch
    (result <- query fold now (SelectByCode c) ;;
     if (rowCount result =? 0)%nat then ret (Json 404 (JError "Not found"))
     else
       r <- first_row result ;;
       ret (Json 200 (JLink (shape r))))
    (fun _ => ret internal_error).

(** [app.delete("/api/links/:code")] *)
Definition delete_link (c : string) : M response :=
  try_catch
    (result <- query fold now (DeleteByCode c) ;;
     if (rowCount result =? 0)%nat then ret (Json 404 (JError "Not found"))
     else ret (Json 200 JOk))
    (fun _ => ret internal_error).

(** [app.get("/:code")] *)
Definition get_code (c : string) : M response :=
  if String.eqb c "favicon.ico" then ret (Send 404 "Not found")
  else
    try_catch
      (connect ;;
       finally
         (try_catch
            (query fold now Begin ;;
             result <- query fold now (SelectForUpdate c) ;;
             if (rowCount result =? 0)%nat then
               query fold now Rollback ;;
               ret (Send 404 "Not found")
             else
               link <- first_row result ;;
               query fold now (UpdateClick (id link)) ;;
               query fold now Commit ;;
               ret (Redirect 302 (original_url link)))
            (fun _ =>
               query fold now Rollback ;;
               ret (Send 500 "Internal server error")))
         release)
      (fun _ => ret (Send 500 "Internal server error")).

(** A request served to its end: the response, and the store after it.
    An exception that leaves a route reaches the default handler of
    Express. *)
Definition serve (generated : string) (rq : request) (w : state)
  : response * state :=
  let m := match rq with
           | PostLinks b => post_links generated b
           | GetLinks s => get_links s
           | GetLink c => get_link c
           | DeleteLink c => delete_link c
           | GetCode c => get_code c
           end in
  match m w with
  | (Ok r, w') => (r, w')
  | (Throw _, w') => (Send 500 "Internal Server Error", w')
  end.

End Server.

(** ** Data for concrete runs *)

(** Strings on which [new URL] returns; every other string counts as
    rejected in the runs below. *)
Definition sample_parses (s : string) : bool :=
  existsb (String.eqb s) ["https://a.com"; "https://example.com"].

Definition link_a : row :=
  mkRow 1 "abc123" "https://a.com" 0 None 100.

Definition link_b : row :=
  mkRow 2 "Zed4567" "https://example.com" 3 (Some 250) 200.

Definition link_c : row :=
  mkRow 3 "abc1234" "https://example.com" 0 None 150.

Definition two_links : table := [link_a; link_b].

(** A body with a URL and, maybe, a custom code. *)
Definition body_of (u : string) (c : option string) : Req.body :=
  Req.mkBody (Some u) None None c.

(** A session with no transaction open, no fault to come and an empty
    log. *)
Definition idle (t : table) : Pg.state := Pg.mkState t None [] [].

(** ** Vocabulary of the properties *)

(** [t] is a prefix of [s], letter case apart. *)
Fixpoint starts_with_ci (t s : string) : bool :=
  match t, s with
  | EmptyString, _ => true
  | String _ _, EmptyString => false
  | String a t', String b s' => Js.eq_ci a b && starts_with_ci t' s'
  end.

(** [t] is a prefix of [s], two characters being the same when [fold]
    sends them to the same one. *)
Fixpoint starts_with_fold (fold : ascii -> ascii) (t s : string) : bool :=
  match t, s with
  | EmptyString, _ => true
  | String _ _, EmptyString => false
  | String a t', String b s' =>
      Ascii.eqb (fold a) (fold b) && starts_with_fold fold t' s'
  end.

(** [t] occurs in [s], in the same sense. *)
Fixpoint contains_fold (fold : ascii -> ascii) (t s : string) : bool :=
  starts_with_fold fold t s
  || match s with
     | EmptyString => false
     | String _ s' => contains_fold fold t s'
     end.

(** The scheme prefix in the words of the specification. *)
Definition has_scheme (s : string) : bool :=
  starts_with_ci "http://" s || starts_with_ci "https://" s.

Definition blank (s : string) : bool := Js.all_chars Js.is_space s.

Fixpoint last_char (s : string) : option ascii :=
  match s with
  | EmptyString => None
  | String c EmptyString => Some c
  | String _ s' => last_char s'
  end.

Definition first_char (s : string) : option ascii :=
  match s with
  | EmptyString => None
  | String c _ => Some c
  end.

Definition not_space (o : option ascii) : bool :=
  match o with
  | Some c => negb (Js.is_space c)
  | None => true
  end.

(** No whitespace at either end. *)
Definition trimmed (s : string) : bool :=
  not_space (first_char s) && not_space (last_char s).

(** The alphabet of the code generator, and what
    [customAlphabet(alphabet, 7)] can return. *)
Definition alphabet : string :=
  "ABCDEFGHIJKLMNOPQRSTUVWXYZabcdefghijklmnopqrstuvwxyz0123456789".

Fixpoint mem_char (c : ascii) (s : string) : bool :=
  match s with
  | EmptyString => false
  | String d s' => Ascii.eqb c d || mem_char c s'
  end.

Definition is_generated (s : string) : bool :=
  (String.length s =? 7)%nat && Js.all_chars (fun c => mem_char c alphabet) s.

Fixpoint distinct {K : Type} (eqb : K -> K -> bool) (ks : list K) : bool :=
  match ks with
  | [] => true
  | k :: ks' => negb (existsb (eqb k) ks') && distinct eqb ks'
  end.

(** Modelled from the spec: the constraints of the table [links], whose
    declaration is not among the sources: [code] and [id] are unique and
    [clickCount] is not negative. *)
Definition wf_table (t : table) : bool :=
  distinct String.eqb (map code t)
  && distinct Z.eqb (map id t)
  && forallb (fun r => 0 <=? click_count r) t.

(** A search term with no character that [ILIKE] reads as a wildcard or
    as a quote. *)
Definition plain (t : string) : bool :=
  Js.all_chars (fun c => negb (Like.is_meta c)) t.

(** The pattern that matches [t] itself. *)
Fixpoint lits (t : string) : list Like.tok :=
  match t with
  | EmptyString => []
  | String c t' => Like.Lit c :: lits t'
  end.

(** The rows a search for [t] is to return: those whose code or URL
    has [t] in it, letter case apart as the database folds it. *)
Definition mentions (fold : ascii -> ascii) (t : string) (r : row) : bool :=
  contains_fold fold t (code r) || contains_fold fold t (original_url r).

(** Newest first. *)
Definition newer_first (a b : row) : Prop := created_at b <= created_at a.

(** The field read by the routes as the long URL. *)
Definition long_url (b : Req.body) : option string :=
  Js.or_else (Js.or_else (Req.url b) (Req.targetUrl b)) (Req.originalUrl b).

(** Case analysis on the faults still to come, as far as the calls of a
    route read them. *)
Ltac fault_cases :=
  repeat (simpl;
          match goal with
          | |- context [match ?fs with [] => _ | _ :: _ => _ end] =>
              is_var fs; destruct fs as [|[| |] fs]
          end);
  simpl.

(** ** The pages of the dashboard *)

(** [s.slice(0, n)] *)
Fixpoint take (n : nat) (s : string) : string :=
  match n, s with
  | O, _ => EmptyString
  | S _, EmptyString => EmptyString
  | S n', String c s' => String c (take n' s')
  end.

(** [s.split(sep)] for a separator of one character: the pieces between
    the separators, of which there is always one at least. *)
Fixpoint split_on (sep : ascii) (s : string) : list string :=
  match s with
  | EmptyString => [EmptyString]
  | String c s' =>
      if Ascii.eqb c sep then EmptyString :: split_on sep s'
      else
        match split_on sep s' with
        | piece :: pieces => String c piece :: pieces
        | [] => [String c EmptyString]
        end
  end.

Module Dashboard.

(** [validateCode(code)] of the form. *)
Definition validateCode (code : string) : bool :=
  if Js.is_empty code then true else Regex.test_whole code_re code.

(** What a submission of the form comes to: a message shown to the user
    and no request, or a [POST /api/links] with a body. *)
Inductive submission : Type :=
| Shown (message : string)
| Posted (b : Req.body).

(** In a link of the table the target is cut at 57 characters when it has
    more than 60. *)
Definition targetDisplay (originalUrl : string) : string :=
  if (60 <? String.length originalUrl)%nat
  then take 57 originalUrl ++ "..."
  else originalUrl.

Section Form.

Variable URL_parses : string -> bool.

(** [validateUrl(url)] of the form. *)
Definition validateUrl (url : string) : bool :=
  if Js.is_empty url then false
  else
    let val := Js.trim url in
    let val :=
      if negb (Regex.test_prefix scheme_re val)
      then "https://" ++ val else val in
    URL_parses val.

(** The handler of the form's [submit], up to the request it sends;
    [JSON.stringify] leaves out a field that is [undefined]. *)
Definition submit (urlValue codeValue : string) : submission :=
  let url := Js.trim urlValue in
  let code := Js.trim codeValue in
  if negb (validateUrl url) then Shown "Please enter a valid URL."
  else if negb (validateCode code) then
    Shown "Custom code must be 6–8 characters and only letters/numbers."
  else
    Posted {| Req.url := Some url;
              Req.targetUrl := None;
              Req.originalUrl := None;
              Req.code := Js.or_else (Some code) None |}.

End Form.

End Dashboard.

Module Stats.

(** [pathParts[pathParts.length - 1] || ""] for
    [pathParts = window.location.pathname.split("/")]. *)
Definition page_code (pathname : string) : string :=
  match Js.or_else (Some (last (split_on "/" pathname) "")) (Some "") with
  | Some c => c
  | None => ""
  end.

(** What [loadStats] asks the server for: nothing when the code is empty
    (the page shows "Invalid code."), the link of the code otherwise; the
    code travels percent-encoded and the server decodes it. *)
Definition loadStats (pathname : string) : option request :=
  let code := page_code pathname in
  if Js.is_empty code then None else Some (GetLink code).

End Stats.

(** ** Requests in a row *)

(** Requests served one after the other, each with its time and with
    what the code generator returns for it. *)
Fixpoint serve_seq (URL_parses : string -> bool) (fold : ascii -> ascii)
    (BASE_URL : option string) (rqs : list (Z * string * request))
    (w : Pg.state) : list response * Pg.state :=
  match rqs with
  | [] => ([], w)
  | (now, generated, rq) :: rest =>
      let (r, w') := serve URL_parses fold BASE_URL now generated rq w in
      let (rs, w'') := serve_seq URL_parses fold BASE_URL rest w' in
      (r :: rs, w'')
  end.

(** A link as the creation route lets it in: a code of 6 to 8 letters
    and digits, and a URL with a scheme that parses. *)
Definition good_link (URL_parses : string -> bool) (r : row) : bool :=
  isValidCode (code r) && has_scheme (original_url r)
  && URL_parses (original_url r).

(** [s] has the character of code 0 in it, which Postgres refuses in a
    text parameter. *)
Definition has_nul (s : string) : bool := mem_char "000" s.

(** [s] has a slash in it. *)
Definition has_slash (s : string) : bool := mem_char "/" s.

(** A route down to the calls it makes. *)
Ltac open_route :=
  unfold serve, get_code, post_links, get_links, get_link, delete_link,
    Pg.connect, Pg.query, Pg.finally, Pg.try_catch, Pg.bind, Pg.call,
    Pg.exec, first_row, Pg.release, Pg.ret, Pg.throw, Pg.view, Pg.put,
    code_taken.

(** ** Strings *)

Section StringFacts.

Lemma is_empty_true (s : string) : Js.is_empty s = true -> s = "".
Proof. destruct s; [reflexivity | discriminate]. Qed.

Lemma trim_start_blank (ws s : string) :
  blank ws = true -> Js.trim_start (ws ++ s) = Js.trim_start s.
Proof.
  induction ws as [|c ws IH]; simpl; intros H; [reflexivity|].
  apply andb_true_iff in H as [Hc Hws].
  rewrite Hc. now apply IH.
Qed.

Lemma trim_end_blank (s ws : string) :
  blank ws = true -> Js.trim_end (s ++ ws) = Js.trim_end s.
Proof.
  intros Hws. induction s as [|c s IH]; simpl.
  - induction ws as [|d ws IHw]; simpl in *; [reflexivity|].
    apply andb_true_iff in Hws as [Hd Hws].
    rewrite (IHw Hws), Hd. reflexivity.
  - rewrite IH. reflexivity.
Qed.

Lemma trim_end_fixed (s : string) :
  not_space (last_char s) = true -> Js.trim_end s = s.
Proof.
  induction s as [|c s IH]; simpl; intros H; [reflexivity|].
  destruct s as [|d s'].
  - simpl in *. apply negb_true_iff in H. rewrite H. reflexivity.
  - rewrite (IH H). simpl. rewrite andb_false_r. reflexivity.
Qed.

Lemma trim_start_fixed (s : string) :
  not_space (first_char s) = true -> Js.trim_start s = s.
Proof.
  destruct s as [|c s]; simpl; intros H; [reflexivity|].
  apply negb_true_iff in H. now rewrite H.
Qed.

(** Trimming undoes padding with whitespace. *)
Lemma trim_padded (ws1 t ws2 : string) :
  blank ws1 = true -> blank ws2 = true -> trimmed t = true ->
  Js.trim (ws1 ++ t ++ ws2) = t.
Proof.
  intros H1 H2 Ht. unfold Js.trim.
  rewrite (trim_start_blank _ _ H1).
  apply andb_true_iff in Ht as [Hf Hl].
  destruct t as [|c t].
  - simpl. clear Hf Hl.
    replace (Js.trim_start ws2) with ""; [reflexivity|].
    induction ws2 as [|d ws IH]; simpl in *; [reflexivity|].
    apply andb_true_iff in H2 as [Hd Hws]. rewrite Hd. now apply IH.
  - change ((String c t ++ ws2)%string) with (String c (t ++ ws2)).
    rewrite trim_start_fixed by exact Hf.
    change (String c (t ++ ws2)) with ((String c t ++ ws2)%string).
    rewrite (trim_end_blank _ _ H2). now apply trim_end_fixed.
Qed.

Lemma trim_start_split (s : string) :
  exists ws, s = (ws ++ Js.trim_start s)%string /\ blank ws = true
             /\ not_space (first_char (Js.trim_start s)) = true.
Proof.
  induction s as [|c s (ws & E & B & F)].
  - exists "". now simpl.
  - simpl. destruct (Js.is_space c) eqn:Hc.
    + exists (String c ws). simpl. unfold blank in *. simpl.
      rewrite Hc, B. simpl. now rewrite <- E.
    + exists "". simpl. now rewrite Hc.
Qed.

Lemma trim_end_split (s : string) :
  exists ws, s = (Js.trim_end s ++ ws)%string /\ blank ws = true
             /\ not_space (last_char (Js.trim_end s)) = true.
Proof.
  induction s as [|c s (ws & E & B & L)].
  - exists "". now simpl.
  - simpl. destruct (Js.is_space c && Js.is_empty (Js.trim_end s)) eqn:Hc.
    + apply andb_true_iff in Hc as [Hc He].
      apply is_empty_true in He. rewrite He in E. simpl in E. subst ws.
      exists (String c s). unfold blank in *. simpl. now rewrite Hc, B.
    + exists ws. simpl. rewrite <- E. repeat split; try assumption.
      destruct (Js.trim_end s) as [|d r] eqn:Er.
      * simpl in *. rewrite andb_true_r in Hc. now rewrite Hc.
      * exact L.
Qed.

Lemma trim_end_first (s : string) :
  not_space (first_char s) = true ->
  not_space (first_char (Js.trim_end s)) = true.
Proof.
  destruct s as [|c s]; simpl; intros H; [reflexivity|].
  apply negb_true_iff in H. rewrite H. simpl. now rewrite H.
Qed.

(** Every string is its trimmed form between two runs of whitespace. *)
Lemma trim_split (s : string) :
  exists ws1 ws2,
    s = (ws1 ++ Js.trim s ++ ws2)%string
    /\ blank ws1 = true /\ blank ws2 = true /\ trimmed (Js.trim s) = true.
Proof.
  destruct (trim_start_split s) as (ws1 & E1 & B1 & F).
  destruct (trim_end_split (Js.trim_start s)) as (ws2 & E2 & B2 & L).
  exists ws1, ws2. unfold Js.trim, trimmed.
  rewrite <- E2, <- E1, L, (trim_end_first _ F). now repeat split.
Qed.

End StringFacts.

(** ** The two patterns *)

Section RegexFacts.

Lemma run_rep_step (r : Regex.re) (lo hi : nat) (s : string) (k : string -> bool) :
  Regex.run (Regex.Rep r lo (S hi)) s k =
  Regex.run r s (fun s' => Regex.run (Regex.Rep r (Nat.pred lo) hi) s' k)
  || ((lo =? 0)%nat && k s).
Proof. reflexivity. Qed.

(** A bounded repetition of a character class, followed by the end of the
    input, accepts the strings over the class with a length in the
    bounds. *)
Lemma rep_class_whole (p : ascii -> bool) (hi lo : nat) (s : string) :
  Regex.test_whole (Regex.Rep (Regex.Chr p) lo hi) s = true <->
  (lo <= String.length s <= hi)%nat /\ Js.all_chars p s = true.
Proof.
  unfold Regex.test_whole. revert lo s.
  induction hi as [|hi IH]; intros lo s.
  - cbn. rewrite andb_true_iff, Nat.eqb_eq.
    destruct s; cbn; split.
    + intros [-> _]. repeat split; lia.
    + intros [[? _] _]. split; [lia | reflexivity].
    + intros [_ ?]. discriminate.
    + intros [[_ ?] _]. lia.
  - rewrite run_rep_step. destruct s as [|c s].
    + cbn. rewrite andb_true_r, Nat.eqb_eq. split.
      * intros ->. repeat split; lia.
      * intros [[? _] _]. lia.
    + change (Regex.run (Regex.Chr p) (String c s)
                (fun s' => Regex.run (Regex.Rep (Regex.Chr p) (Nat.pred lo) hi)
                             s' Js.is_empty))
        with (p c && Regex.run (Regex.Rep (Regex.Chr p) (Nat.pred lo) hi)
                       s Js.is_empty).
      cbn [Js.is_empty String.length Js.all_chars].
      rewrite andb_false_r, orb_false_r, !andb_true_iff, IH.
      split.
      * intros [Hc [[? ?] Hs]]. repeat split; try assumption; lia.
      * intros [[? ?] [Hc Hs]]. repeat split; try assumption; lia.
Qed.

(** The pattern of the scheme accepts what the specification calls a
    scheme prefix. *)
Lemma scheme_re_has_scheme (s : string) :
  Regex.test_prefix scheme_re s = has_scheme s.
Proof.
  unfold Regex.test_prefix, scheme_re, has_scheme, Regex.lit_ci.
  do 8 (destruct s as [|? s];
        cbn [Regex.run starts_with_ci];
        rewrite ?andb_false_r, ?andb_true_r, ?orb_false_r;
        try reflexivity).
  all: repeat match goal with
       | |- context [Js.eq_ci ?a ?b] => destruct (Js.eq_ci a b); cbn
       end; reflexivity.
Qed.

Lemma alnum_not_space (c : ascii) :
  Js.is_alnum c = true -> Js.is_space c = false.
Proof.
  destruct c as [[] [] [] [] [] [] [] []]; vm_compute;
    first [reflexivity | discriminate].
Qed.

Lemma alphabet_alnum (c : ascii) :
  mem_char c alphabet = true -> Js.is_alnum c = true.
Proof.
  destruct c as [[] [] [] [] [] [] [] []]; vm_compute;
    first [reflexivity | discriminate].
Qed.

Lemma all_chars_impl (p q : ascii -> bool) (s : string) :
  (forall c, p c = true -> q c = true) ->
  Js.all_chars p s = true -> Js.all_chars q s = true.
Proof.
  intros Hpq. induction s as [|c s IH]; simpl; [reflexivity|].
  rewrite !andb_true_iff. intros [? ?]. split; auto.
Qed.

Lemma isValidCode_iff (s : string) :
  isValidCode s = true <->
  (6 <= String.length s <= 8)%nat /\ Js.all_chars Js.is_alnum s = true.
Proof. apply rep_class_whole. Qed.

(** A valid code has no whitespace at its ends, so trimming keeps it. *)
Lemma valid_code_trimmed (c : string) :
  isValidCode c = true -> trimmed c = true.
Proof.
  rewrite isValidCode_iff. intros [[Hlen _] Hall].
  unfold trimmed. apply andb_true_iff. split.
  - destruct c as [|a c]; [reflexivity|]. simpl in *.
    apply andb_true_iff in Hall as [Ha _].
    now rewrite (alnum_not_space _ Ha).
  - clear Hlen. induction c as [|a c IH]; [reflexivity|].
    simpl in Hall. apply andb_true_iff in Hall as [Ha Hc].
    destruct c as [|b c'].
    + simpl. now rewrite (alnum_not_space _ Ha).
    + exact (IH Hc).
Qed.

Lemma valid_code_trim (c : string) :
  isValidCode c = true -> Js.trim c = c.
Proof.
  intros H. generalize (trim_padded "" c "" eq_refl eq_refl (valid_code_trimmed _ H)).
  simpl. intros E.
  replace (c ++ "")%string with c in E; [exact E|].
  clear. induction c as [|a c IH]; simpl; [reflexivity | now rewrite <- IH].
Qed.

Lemma valid_code_nonempty (c : string) :
  isValidCode c = true -> Js.is_empty c = false.
Proof.
  rewrite isValidCode_iff. intros [[Hlen _] _].
  destruct c; [simpl in Hlen; lia | reflexivity].
Qed.

Lemma generated_valid (s : string) :
  is_generated s = true -> isValidCode s = true.
Proof.
  unfold is_generated. rewrite andb_true_iff, Nat.eqb_eq, isValidCode_iff.
  intros [Hlen Hall]. split; [lia|].
  exact (all_chars_impl _ _ _ alphabet_alnum Hall).
Qed.

End RegexFacts.

(** ** Patterns of [ILIKE] and the order of a listing *)

Section ListingFacts.

Lemma parse_plain (t rest : string) :
  plain t = true ->
  Like.parse (t ++ rest) = option_map (app (lits t)) (Like.parse rest).
Proof.
  induction t as [|c t IH]; simpl; intros H.
  - now destruct (Like.parse rest).
  - apply andb_true_iff in H as [Hc Ht].
    unfold Like.is_meta in Hc. apply negb_true_iff in Hc.
    apply orb_false_iff in Hc as [Hc Hq].
    apply orb_false_iff in Hc as [Hp Hu].
    rewrite Hp, Hu, Hq, (IH Ht).
    now destruct (Like.parse rest).
Qed.

Lemma parse_step (c : ascii) (p : string) :
  Like.parse (String c p) =
  if Ascii.eqb c "%" then option_map (cons Like.Any) (Like.parse p)
  else if Ascii.eqb c "_" then option_map (cons Like.One) (Like.parse p)
  else if Ascii.eqb c "\" then
    match p with
    | EmptyString => None
    | String d p' => option_map (cons (Like.Lit d)) (Like.parse p')
    end
  else option_map (cons (Like.Lit c)) (Like.parse p).
Proof. reflexivity. Qed.

(** The pattern of a search ends in [%], so it is never cut after a
    backslash: the listing cannot fail on its pattern. *)
Lemma search_pattern_parses (s : string) :
  Like.parse ("%" ++ s ++ "%") <> None.
Proof.
  assert (forall t,
            Like.parse (t ++ "%") <> None
            /\ forall c, Like.parse (String c (t ++ "%")) <> None) as H.
  { induction t as [|d t [IH1 IH2]].
    - split; [discriminate|]. intros c. simpl.
      destruct (Ascii.eqb c "%"), (Ascii.eqb c "_"), (Ascii.eqb c "\");
        discriminate.
    - split; [exact (IH2 d)|]. intros c.
      change ((String d t ++ "%")%string) with (String d (t ++ "%")).
      rewrite parse_step. cbv beta iota.
      specialize (IH2 d).
      destruct (Like.parse (String d (t ++ "%"))); [|contradiction].
      destruct (Like.parse (t ++ "%")); [|contradiction].
      destruct (Ascii.eqb c "%"), (Ascii.eqb c "_"), (Ascii.eqb c "\");
        discriminate. }
  exact (proj2 (H s) "%"%char).
Qed.

Lemma matches_any_step (fold : ascii -> ascii) (p : list Like.tok)
    (s : string) :
  Like.matches fold (Like.Any :: p) s =
  Like.matches fold p s
  || match s with
     | EmptyString => false
     | String _ s' => Like.matches fold (Like.Any :: p) s'
     end.
Proof. destruct s; reflexivity. Qed.

Lemma matches_any (fold : ascii -> ascii) (s : string) :
  Like.matches fold [Like.Any] s = true.
Proof.
  induction s as [|c s IH]; [reflexivity|].
  rewrite matches_any_step, IH. apply orb_true_r.
Qed.

Lemma matches_prefix (fold : ascii -> ascii) (t s : string) :
  Like.matches fold (lits t ++ [Like.Any]) s = starts_with_fold fold t s.
Proof.
  revert s. induction t as [|c t IH]; intros s.
  - simpl lits. simpl app. rewrite matches_any. now destruct s.
  - destruct s as [|d s]; [reflexivity|].
    cbn [lits app Like.matches starts_with_fold]. now rewrite IH.
Qed.

Lemma matches_search (fold : ascii -> ascii) (t s : string) :
  Like.matches fold (Like.Any :: lits t ++ [Like.Any]) s =
  contains_fold fold t s.
Proof.
  induction s as [|d s IH]; rewrite matches_any_step, matches_prefix.
  - reflexivity.
  - rewrite IH. reflexivity.
Qed.

Lemma contains_empty (fold : ascii -> ascii) (s : string) :
  contains_fold fold "" s = true.
Proof. destruct s; reflexivity. Qed.

Lemma insert_desc_perm (r : row) (l : list row) :
  Permutation (insert_desc r l) (r :: l).
Proof.
  induction l as [|x l IH]; simpl; [reflexivity|].
  destruct (created_at x <? created_at r); [reflexivity|].
  rewrite IH. apply perm_swap.
Qed.

Lemma order_desc_perm (l : list row) : Permutation (order_desc l) l.
Proof.
  induction l as [|x l IH]; simpl; [constructor|].
  rewrite insert_desc_perm. now constructor.
Qed.

Lemma insert_desc_sorted (r : row) (l : list row) :
  Sorted newer_first l -> Sorted newer_first (insert_desc r l).
Proof.
  induction l as [|x l IH]; simpl; intros Hs.
  - repeat constructor.
  - destruct (created_at x <? created_at r) eqn:Hlt.
    + constructor; [exact Hs|]. constructor.
      unfold newer_first. apply Z.ltb_lt in Hlt. lia.
    + apply Z.ltb_ge in Hlt.
      inversion Hs as [|? ? Hs' Hhd]; subst.
      constructor; [now apply IH|].
      destruct l as [|y l]; simpl.
      * constructor. exact Hlt.
      * destruct (created_at y <? created_at r).
        -- constructor. exact Hlt.
        -- constructor. now inversion Hhd.
Qed.

Lemma order_desc_sorted (l : list row) : Sorted newer_first (order_desc l).
Proof.
  induction l as [|x l IH]; simpl; [constructor|].
  now apply insert_desc_sorted.
Qed.

End ListingFacts.

(** ** Tables *)

Section TableFacts.

Context {K : Type} (eqb : K -> K -> bool).
Hypothesis eqb_spec : forall a b, eqb a b = true <-> a = b.

Lemma eqb_refl' (a : K) : eqb a a = true.
Proof. now apply eqb_spec. Qed.

Lemma eqb_sym' (a b : K) : eqb a b = eqb b a.
Proof.
  destruct (eqb a b) eqn:E, (eqb b a) eqn:E'; try reflexivity.
  - apply eqb_spec in E. subst. now rewrite eqb_refl' in E'.
  - apply eqb_spec in E'. subst. now rewrite eqb_refl' in E.
Qed.

Lemma existsb_key_false (f : row -> K) (k : K) (t : table) :
  existsb (eqb k) (map f t) = false ->
  forall x, In x t -> eqb (f x) k = false.
Proof.
  induction t as [|y t IH]; simpl; intros H x Hx; [contradiction|].
  apply orb_false_iff in H as [Hy Ht].
  destruct Hx as [<-|Hx]; [now rewrite eqb_sym' | now apply IH].
Qed.

Lemma existsb_key_true (f : row -> K) (t : table) (x : row) :
  In x t -> existsb (eqb (f x)) (map f t) = true.
Proof.
  induction t as [|y t IH]; simpl; intros Hx; [contradiction|].
  destruct Hx as [<-|Hx]; [now rewrite eqb_refl' | rewrite IH by exact Hx].
  apply orb_true_r.
Qed.

(** Under a unique key, the rows with the key of [r] are [r] alone. *)
Lemma filter_key (f : row -> K) (t : table) (r : row) :
  distinct eqb (map f t) = true -> In r t ->
  filter (fun x => eqb (f x) (f r)) t = [r].
Proof.
  induction t as [|y t IH]; simpl; intros D Hr; [contradiction|].
  apply andb_true_iff in D as [Hy Dt]. apply negb_true_iff in Hy.
  destruct Hr as [->|Hr].
  - rewrite eqb_refl'. f_equal.
    clear IH Dt. induction t as [|z t IH]; simpl in *; [reflexivity|].
    apply orb_false_iff in Hy as [Hz Ht].
    rewrite eqb_sym', Hz. now apply IH.
  - assert (eqb (f y) (f r) = false) as ->
      by (rewrite eqb_sym'; exact (existsb_key_false f _ _ Hy r Hr)).
    now apply IH.
Qed.

Lemma distinct_inj (f : row -> K) (t : table) (x y : row) :
  distinct eqb (map f t) = true -> In x t -> In y t -> f x = f y -> x = y.
Proof.
  intros D Hx Hy E.
  assert (In y (filter (fun z => eqb (f z) (f x)) t)) as Hin.
  { apply filter_In. split; [exact Hy|]. rewrite E. apply eqb_refl'. }
  rewrite (filter_key f t x D Hx) in Hin.
  destruct Hin as [<-|[]]. reflexivity.
Qed.

Lemma distinct_filter (f : row -> K) (p : row -> bool) (t : table) :
  distinct eqb (map f t) = true -> distinct eqb (map f (filter p t)) = true.
Proof.
  induction t as [|y t IH]; simpl; intros D; [reflexivity|].
  apply andb_true_iff in D as [Hy Dt]. apply negb_true_iff in Hy.
  destruct (p y); simpl; [|now apply IH].
  rewrite (IH Dt), andb_true_r. apply negb_true_iff.
  destruct (existsb (eqb (f y)) (map f (filter p t))) eqn:E; [|reflexivity].
  apply existsb_exists in E as (k & Hk & Hky).
  apply in_map_iff in Hk as (z & <- & Hz). apply filter_In in Hz as [Hz _].
  rewrite eqb_sym' in Hky.
  now rewrite (existsb_key_false f _ _ Hy z Hz) in Hky.
Qed.

Lemma distinct_snoc (ks : list K) (k : K) :
  distinct eqb ks = true -> existsb (eqb k) ks = false ->
  distinct eqb (ks ++ [k]) = true.
Proof.
  induction ks as [|a ks IH]; simpl; intros D E; [reflexivity|].
  apply andb_true_iff in D as [Ha Dk]. apply orb_false_iff in E as [Eka Ek].
  rewrite (IH Dk Ek), andb_true_r, existsb_app. simpl.
  apply negb_true_iff in Ha. now rewrite Ha, eqb_sym', Eka.
Qed.

End TableFacts.

Section WellFormed.

Lemma wf_parts (t : table) :
  wf_table t = true <->
  distinct String.eqb (map code t) = true
  /\ distinct Z.eqb (map id t) = true
  /\ forallb (fun r => 0 <=? click_count r) t = true.
Proof. unfold wf_table. rewrite !andb_true_iff. tauto. Qed.

Lemma existsb_has_code (c : string) (t : table) :
  existsb (has_code c) t = existsb (String.eqb c) (map code t).
Proof.
  induction t as [|x t IH]; simpl; [reflexivity|].
  unfold has_code at 1. now rewrite String.eqb_sym, IH.
Qed.

Lemma select_unique (t : table) (r : row) :
  wf_table t = true -> In r t -> filter (has_code (code r)) t = [r].
Proof.
  intros W Hr. apply wf_parts in W as (Dc & _ & _).
  exact (filter_key String.eqb String.eqb_eq code t r Dc Hr).
Qed.

Lemma select_absent (c : string) (t : table) :
  existsb (has_code c) t = false -> filter (has_code c) t = [].
Proof.
  induction t as [|x t IH]; simpl; intros H; [reflexivity|].
  apply orb_false_iff in H as [Hx Ht]. rewrite Hx. now apply IH.
Qed.

Lemma select_present (c : string) (t : table) :
  existsb (has_code c) t = true ->
  exists r rest, filter (has_code c) t = r :: rest /\ In r t /\ code r = c.
Proof.
  intros H. apply existsb_exists in H as (x & Hx & Hc).
  assert (In x (filter (has_code c) t)) as Hin by now apply filter_In.
  destruct (filter (has_code c) t) as [|r rest] eqn:F; [contradiction|].
  exists r, rest. split; [reflexivity|].
  assert (In r (filter (has_code c) t)) as Hr by (rewrite F; now left).
  apply filter_In in Hr as [Hr Hrc]. split; [exact Hr|].
  now apply String.eqb_eq in Hrc.
Qed.

(** In a well-formed table the row of an identifier is the row of its
    code. *)
Lemma id_picks_code (t : table) (r x : row) :
  wf_table t = true -> In r t -> In x t ->
  has_id (id r) x = has_code (code r) x.
Proof.
  intros W Hr Hx. apply wf_parts in W as (Dc & Di & _).
  unfold has_id, has_code.
  destruct (id x =? id r) eqn:Ei, (code x =? code r)%string eqn:Ec;
    try reflexivity.
  - apply Z.eqb_eq in Ei.
    rewrite (distinct_inj Z.eqb Z.eqb_eq id t x r Di Hx Hr Ei) in Ec.
    now rewrite String.eqb_refl in Ec.
  - apply String.eqb_eq in Ec.
    rewrite (distinct_inj String.eqb String.eqb_eq code t x r Dc Hx Hr Ec) in Ei.
    now rewrite Z.eqb_refl in Ei.
Qed.

Lemma click_by_code (now : Z) (t : table) (r : row) :
  wf_table t = true -> In r t ->
  map (fun x => if has_id (id r) x then click now x else x) t =
  map (fun x => if has_code (code r) x then click now x else x) t.
Proof.
  intros W Hr. apply map_ext_in. intros x Hx.
  now rewrite (id_picks_code t r x W Hr Hx).
Qed.

Lemma wf_click (now i : Z) (t : table) :
  wf_table t = true ->
  wf_table (map (fun x => if has_id i x then click now x else x) t) = true.
Proof.
  rewrite !wf_parts, !map_map. intros (Dc & Di & Hn).
  replace (map (fun x => code (if has_id i x then click now x else x)) t)
    with (map code t)
    by (apply map_ext; intros x; now destruct (has_id i x)).
  replace (map (fun x => id (if has_id i x then click now x else x)) t)
    with (map id t)
    by (apply map_ext; intros x; now destruct (has_id i x)).
  repeat split; try assumption.
  rewrite forallb_forall in *. intros y Hy.
  apply in_map_iff in Hy as (x & <- & Hx). specialize (Hn x Hx).
  apply Z.leb_le in Hn. apply Z.leb_le.
  destruct (has_id i x); simpl; lia.
Qed.

Lemma fresh_id_above (t : table) (x : row) : In x t -> id x < fresh_id t.
Proof.
  unfold fresh_id.
  induction t as [|y t IH]; cbn [fold_right map In]; intros Hx; [contradiction|].
  destruct Hx as [->|Hx]; [lia | specialize (IH Hx); lia].
Qed.

Lemma wf_insert (now : Z) (c u : string) (t : table) :
  wf_table t = true -> existsb (has_code c) t = false ->
  wf_table (t ++ [new_row t now c u])%list = true.
Proof.
  rewrite !wf_parts, !map_app. intros (Dc & Di & Hn) Hc. simpl.
  repeat split.
  - apply (distinct_snoc String.eqb String.eqb_eq); [exact Dc|].
    now rewrite <- existsb_has_code.
  - apply (distinct_snoc Z.eqb Z.eqb_eq); [exact Di|].
    destruct (existsb (Z.eqb (fresh_id t)) (map id t)) eqn:E; [|reflexivity].
    apply existsb_exists in E as (k & Hk & Ek).
    apply in_map_iff in Hk as (x & <- & Hx).
    apply Z.eqb_eq in Ek. pose proof (fresh_id_above t x Hx). lia.
  - rewrite forallb_app, Hn. reflexivity.
Qed.

Lemma wf_delete (p : row -> bool) (t : table) :
  wf_table t = true -> wf_table (filter p t) = true.
Proof.
  rewrite !wf_parts. intros (Dc & Di & Hn). repeat split.
  - now apply (distinct_filter String.eqb String.eqb_eq).
  - now apply (distinct_filter Z.eqb Z.eqb_eq).
  - rewrite forallb_forall in *. intros x Hx.
    apply filter_In in Hx as [Hx _]. now apply Hn.
Qed.

End WellFormed.

(** ** The routes *)

Section RouteFacts.

Import Pg.

Variable P : string -> bool.
Variable fold : ascii -> ascii.
Variable base : option string.
Variable now : Z.

(** The redirect with every call succeeding, when the code is known. *)
Lemma get_code_found (gen c : string) (db rest : table) (r : row)
    (lg : list event) :
  String.eqb c "favicon.ico" = false ->
  filter (has_code c) db = r :: rest ->
  serve P fold base now gen (GetCode c) (mkState db None [] lg) =
  (Redirect 302 (original_url r),
   mkState (map (fun x => if has_id (id r) x then click now x else x) db)
     None []
     (Release :: Query Commit :: Query (UpdateClick (id r))
        :: Query (SelectForUpdate c) :: Query Begin :: Connect :: lg)).
Proof.
  intros Hfav F. open_route. rewrite Hfav. simpl. rewrite F. reflexivity.
Qed.

(** The redirect with every call succeeding, when the code is unknown. *)
Lemma get_code_missing (gen c : string) (db : table) (lg : list event) :
  String.eqb c "favicon.ico" = false ->
  filter (has_code c) db = [] ->
  serve P fold base now gen (GetCode c) (mkState db None [] lg) =
  (Send 404 "Not found",
   mkState db None []
     (Release :: Query Rollback :: Query (SelectForUpdate c)
        :: Query Begin :: Connect :: lg)).
Proof.
  intros Hfav F. open_route. rewrite Hfav. simpl. rewrite F. reflexivity.
Qed.

(** What the redirect can do to the table, whatever calls fail: the
    click is in the table when the redirect is answered, and also when
    the answer to [COMMIT] is lost. *)
Lemma get_code_effect (gen c : string) (db : table) (fs : list fault)
    (lg : list event) :
  let out := serve P fold base now gen (GetCode c) (mkState db None fs lg) in
  (committed (snd out) = db
   /\ (fst out = Send 404 "Not found"
       \/ fst out = Send 500 "Internal server error"))
  \/ (exists r rest,
        filter (has_code c) db = r :: rest
        /\ committed (snd out) =
           map (fun x => if has_id (id r) x then click now x else x) db
        /\ (fst out = Redirect 302 (original_url r)
            \/ fst out = Send 500 "Internal server error")).
Proof.
  open_route.
  destruct (String.eqb c "favicon.ico"); [left; simpl; auto|].
  destruct (filter (has_code c) db) as [|r rest] eqn:F.
  - fault_cases. all: try rewrite F. all: fault_cases. all: auto.
  - fault_cases. all: try rewrite F. all: fault_cases.
    all: try (left; split; [reflexivity | auto]; fail).
    all: right; exists r, rest; auto.
Qed.

(** The creation with every call succeeding, past the two validations. *)
Lemma post_links_run (gen u : string) (b : Req.body) (db : table)
    (lg : list event) :
  normalizeUrl P (long_url b) = Some u ->
  isValidCode (pick_code (Req.code b) gen) = true ->
  serve P fold base now gen (PostLinks b) (mkState db None [] lg) =
  let c := pick_code (Req.code b) gen in
  if existsb (has_code c) db then
    (Json 409 (JError "Code already exists"),
     mkState db None [] (Query (InsertLink c u) :: lg))
  else
    (Json 201 (JLink (shape base (new_row db now c u))),
     mkState (db ++ [new_row db now c u])%list None []
       (Query (InsertLink c u) :: lg)).
Proof.
  intros Hu Hc. open_route. unfold long_url in Hu. rewrite Hu, Hc. simpl.
  destruct (existsb (has_code (pick_code (Req.code b) gen)) db); reflexivity.
Qed.

(** What the creation can do to the table, whatever calls fail. *)
Lemma post_links_effect (gen : string) (b : Req.body) (db : table)
    (fs : list fault) (lg : list event) :
  let out := serve P fold base now gen (PostLinks b) (mkState db None fs lg) in
  committed (snd out) = db
  \/ (exists u,
        existsb (has_code (pick_code (Req.code b) gen)) db = false
        /\ committed (snd out) =
           (db ++ [new_row db now (pick_code (Req.code b) gen) u])%list).
Proof.
  open_route.
  destruct (normalizeUrl P _) as [u|]; [|left; reflexivity].
  destruct (isValidCode _); [|left; reflexivity]. simpl.
  destruct (existsb (has_code (pick_code (Req.code b) gen)) db) eqn:E.
  - fault_cases; rewrite ?E; simpl; left; reflexivity.
  - fault_cases; rewrite ?E; simpl; try (left; reflexivity);
      right; exists u; auto.
Qed.

(** The two routes that read leave the table as it is. *)
Lemma get_links_effect (gen : string) (s : option string) (db : table)
    (fs : list fault) (lg : list event) :
  committed (snd (serve P fold base now gen (GetLinks s) (mkState db None fs lg))) = db.
Proof.
  open_route. destruct (negb (Js.is_empty (search_term s))).
  - destruct (Like.parse _); fault_cases; reflexivity.
  - fault_cases; reflexivity.
Qed.

Lemma get_link_effect (gen c : string) (db : table) (fs : list fault)
    (lg : list event) :
  committed (snd (serve P fold base now gen (GetLink c) (mkState db None fs lg))) = db.
Proof.
  open_route. destruct (filter (has_code c) db) eqn:F.
  - fault_cases. all: try rewrite F. all: reflexivity.
  - fault_cases. all: try rewrite F. all: reflexivity.
Qed.

Lemma delete_link_effect (gen c : string) (db : table) (fs : list fault)
    (lg : list event) :
  let out := serve P fold base now gen (DeleteLink c) (mkState db None fs lg) in
  committed (snd out) = db
  \/ committed (snd out) = filter (fun r => negb (has_code c r)) db.
Proof.
  open_route. destruct (filter (has_code c) db) eqn:F.
  - fault_cases. all: try rewrite F. all: auto.
  - fault_cases. all: try rewrite F. all: auto.
Qed.

(** A listing with every call succeeding. *)
Lemma get_links_run (gen : string) (s : option string) (db : table)
    (lg : list event) :
  plain (search_term s) = true ->
  serve P fold base now gen (GetLinks s) (mkState db None [] lg) =
  let t := search_term s in
  if Js.is_empty t then
    (Json 200 (JLinks (map (shape base) (order_desc db))),
     mkState db None [] (Query SelectAll :: lg))
  else
    (Json 200
       (JLinks (map (shape base) (order_desc (filter (mentions fold t) db)))),
     mkState db None [] (Query (SelectSearch ("%" ++ t ++ "%")) :: lg)).
Proof.
  intros Hp. open_route.
  destruct (Js.is_empty (search_term s)) eqn:E; simpl; [reflexivity|].
  rewrite (parse_plain _ "%" Hp). simpl.
  replace (filter (ilike fold (Like.Any :: lits (search_term s) ++ [Like.Any])%list) db)
    with (filter (mentions fold (search_term s)) db); [reflexivity|].
  apply filter_ext. intros r. unfold ilike, mentions.
  now rewrite !matches_search.
Qed.

End RouteFacts.

(** ** The properties *)

Section Properties.

Import Pg.

Variable P : string -> bool.
Variable fold : ascii -> ascii.
Variable base : option string.
Variable now : Z.

Lemma filter_click (c : string) (t : table) :
  filter (has_code c)
    (map (fun x => if has_code c x then click now x else x) t) =
  map (click now) (filter (has_code c) t).
Proof.
  induction t as [|x t IH]; simpl; [reflexivity|].
  destruct (has_code c x) eqn:E.
  - change (has_code c (click now x)) with (has_code c x).
    rewrite E. simpl. now rewrite IH.
  - rewrite E. exact IH.
Qed.

(** C1. In a well-formed store holding a link [r] whose code is not
    [favicon.ico], the request [GET /:code] for the code of [r] answers
    with a redirect 302 to the original URL of [r]; the URL is read and the
    click is written between one [BEGIN] and its [COMMIT]; afterwards the
    link of that code has one click more and is last clicked at the time of
    the request, and the other links are as before. *)
Theorem redirect_records_click (gen : string) (db : table) (r : row)
    (lg : list event) :
  wf_table db = true -> In r db -> code r <> "favicon.ico" ->
  exists db',
    serve P fold base now gen (GetCode (code r)) (mkState db None [] lg) =
    (Redirect 302 (original_url r),
     mkState db' None []
       (Release :: Query Commit :: Query (UpdateClick (id r))
          :: Query (SelectForUpdate (code r)) :: Query Begin
          :: Connect :: lg))
    /\ filter (has_code (code r)) db' = [click now r]
    /\ click_count (click now r) = click_count r + 1
    /\ last_clicked_at (click now r) = Some now
    /\ (forall x, In x db -> code x <> code r -> In x db').
Proof.
  intros W Hr Hfav.
  exists (map (fun x => if has_code (code r) x then click now x else x) db).
  apply String.eqb_neq in Hfav.
  rewrite (get_code_found P fold base now gen _ db [] r lg Hfav
             (select_unique db r W Hr)).
  rewrite (click_by_code now db r W Hr), filter_click,
    (select_unique db r W Hr).
  repeat split.
  intros x Hx Hne. apply in_map_iff. exists x. split; [|exact Hx].
  unfold has_code. apply String.eqb_neq in Hne. now rewrite Hne.
Qed.

(** C2. When no link of the store has the code, [GET /:code] answers 404
    and the table is the one before; the table is the one before also when
    calls to the store fail. *)
Theorem redirect_unknown_code (gen c : string) (db : table)
    (lg : list event) :
  existsb (has_code c) db = false ->
  (exists lg',
     serve P fold base now gen (GetCode c) (mkState db None [] lg) =
     (Send 404 "Not found", mkState db None [] lg'))
  /\ (forall fs,
        committed (snd (serve P fold base now gen (GetCode c)
                          (mkState db None fs lg))) = db).
Proof.
  intros H. pose proof (select_absent c db H) as F. split.
  - destruct (String.eqb c "favicon.ico") eqn:Hfav.
    + exists lg. unfold serve, get_code. now rewrite Hfav.
    + eexists. exact (get_code_missing P fold base now gen c db lg Hfav F).
  - intros fs.
    destruct (get_code_effect P fold base now gen c db fs lg)
      as [[E _]|(r & rest & F' & _)]; [exact E|].
    rewrite F in F'. discriminate.
Qed.

(** C3, as the code has it. When no custom code is supplied, the one
    generated code is inserted once: if a link of the store has it already,
    the answer is the client error 409 after that single attempt, and the
    table is the one before. *)
Theorem create_generated_collision (gen u : string) (b : Req.body)
    (db : table) (lg : list event) :
  Js.truthy (Req.code b) = false ->
  is_generated gen = true ->
  normalizeUrl P (long_url b) = Some u ->
  existsb (has_code gen) db = true ->
  serve P fold base now gen (PostLinks b) (mkState db None [] lg) =
  (Json 409 (JError "Code already exists"),
   mkState db None [] (Query (InsertLink gen u) :: lg)).
Proof.
  intros Hc Hg Hu He.
  assert (pick_code (Req.code b) gen = gen) as Hpick.
  { unfold pick_code. destruct (Req.code b); [now rewrite Hc | reflexivity]. }
  rewrite (post_links_run P fold base now gen u b db lg Hu);
    rewrite Hpick; [|now apply generated_valid].
  cbv zeta. now rewrite He.
Qed.

(** C4. When a link of the store has the valid code [c], a creation that
    supplies [c] leaves the table as it is, whatever calls fail; when its
    URL is accepted and the store answers, the response is 409. *)
Theorem create_existing_code (gen c : string) (b : Req.body) (db : table)
    (lg : list event) :
  Req.code b = Some c ->
  isValidCode c = true ->
  existsb (has_code c) db = true ->
  (forall fs,
     committed (snd (serve P fold base now gen (PostLinks b)
                       (mkState db None fs lg))) = db)
  /\ (forall u,
        normalizeUrl P (long_url b) = Some u ->
        serve P fold base now gen (PostLinks b) (mkState db None [] lg) =
        (Json 409 (JError "Code already exists"),
         mkState db None [] (Query (InsertLink c u) :: lg))).
Proof.
  intros Hb Hc He.
  assert (pick_code (Req.code b) gen = c) as Hpick.
  { unfold pick_code. rewrite Hb. simpl.
    now rewrite (valid_code_nonempty c Hc), (valid_code_trim c Hc). }
  split.
  - intros fs.
    destruct (post_links_effect P fold base now gen b db fs lg)
      as [E|(u & E & _)]; [exact E|].
    rewrite Hpick, He in E. discriminate.
  - intros u Hu.
    rewrite (post_links_run P fold base now gen u b db lg Hu);
      rewrite Hpick; [|exact Hc].
    cbv zeta. now rewrite He.
Qed.

(** C5, as the code has it. Let [t] be the search term without the
    whitespace at its ends. When [t] has none of the characters [%], [_]
    and backslash, the listing is made of exactly the links whose code or
    original URL contains [t], letter case apart, newest first; when [t] is
    empty these are all the links. *)
Theorem list_search_plain (gen : string) (search : option string)
    (db : table) (lg : list event) :
  plain (search_term search) = true ->
  exists rs lg',
    serve P fold base now gen (GetLinks search) (mkState db None [] lg) =
    (Json 200 (JLinks (map (shape base) rs)), mkState db None [] lg')
    /\ Permutation rs (filter (mentions fold (search_term search)) db)
    /\ Sorted newer_first rs
    /\ (search_term search = "" -> Permutation rs db).
Proof.
  intros Hp. rewrite (get_links_run P fold base now gen search db lg Hp).
  cbv zeta. destruct (Js.is_empty (search_term search)) eqn:E.
  - apply is_empty_true in E. rewrite E.
    exists (order_desc db). eexists. split; [reflexivity|].
    assert (filter (mentions fold "") db = db) as ->.
    { clear. induction db as [|x t IH]; simpl; [reflexivity|].
      unfold mentions at 1. now rewrite contains_empty, IH. }
    repeat split.
    + apply order_desc_perm.
    + apply order_desc_sorted.
    + intros _. apply order_desc_perm.
  - exists (order_desc (filter (mentions fold (search_term search)) db)).
    eexists. split; [reflexivity|]. repeat split.
    + apply order_desc_perm.
    + apply order_desc_sorted.
    + intros E'. rewrite E' in E. discriminate.
Qed.

(** C6. [normalizeUrl] returns a string [r] exactly when the input is not
    empty, [r] is the input without the whitespace at its ends, with
    [https://] put in front if and only if it has no prefix [http://] or
    [https://], letter case apart, and [r] parses as a URL; the empty input
    and the absent one give [null]. *)
Theorem normalizeUrl_spec (s r : string) :
  (normalizeUrl P (Some s) = Some r <->
   s <> ""
   /\ P r = true
   /\ exists ws1 t ws2,
        s = (ws1 ++ t ++ ws2)%string
        /\ blank ws1 = true /\ blank ws2 = true /\ trimmed t = true
        /\ r = if has_scheme t then t else ("https://" ++ t)%string)
  /\ normalizeUrl P (Some "") = None
  /\ normalizeUrl P None = None.
Proof.
  split; [|split; reflexivity].
  unfold normalizeUrl. rewrite scheme_re_has_scheme. split.
  - destruct (Js.is_empty s) eqn:E; [discriminate|].
    intros H. split; [intros ->; discriminate|].
    destruct (trim_split s) as (ws1 & ws2 & Es & B1 & B2 & T).
    destruct (has_scheme (Js.trim s)) eqn:Hs; simpl in H;
      destruct (P _) eqn:HP; try discriminate;
      injection H as <-; (split; [exact HP|]);
      exists ws1, (Js.trim s), ws2; rewrite Hs; auto.
  - intros (Hne & HP & ws1 & t & ws2 & -> & B1 & B2 & T & ->).
    destruct (Js.is_empty (ws1 ++ t ++ ws2)) eqn:E;
      [apply is_empty_true in E; contradiction|].
    rewrite (trim_padded ws1 t ws2 B1 B2 T).
    destruct (has_scheme t); cbn [negb]; now rewrite HP.
Qed.

(** C7. [isValidCode] accepts a string exactly when its length is between
    6 and 8 and each of its characters is an ASCII letter or digit; it
    rejects exactly the strings that are shorter, longer, or have another
    character. *)
Theorem isValidCode_spec (s : string) :
  (isValidCode s = true <->
   (6 <= String.length s <= 8)%nat /\ Js.all_chars Js.is_alnum s = true)
  /\ (isValidCode s = false <->
      (String.length s < 6)%nat \/ (8 < String.length s)%nat
      \/ Js.all_chars Js.is_alnum s = false).
Proof.
  pose proof (isValidCode_iff s) as H. split; [exact H|].
  destruct (isValidCode s), (Js.all_chars Js.is_alnum s); split; intros G;
    try reflexivity; try discriminate; try (right; right; reflexivity).
  - destruct H as [H _]. destruct (H eq_refl) as [? _].
    destruct G as [G|[G|G]]; [lia | lia | discriminate].
  - destruct H as [H _]. destruct (H eq_refl) as [_ ?]. discriminate.
  - destruct (Nat.lt_ge_cases (String.length s) 6) as [?|?]; [now left|].
    destruct (Nat.lt_ge_cases 8 (String.length s)) as [?|?];
      [now right; left|].
    destruct H as [_ H]. discriminate H. split; [lia | reflexivity].
Qed.

(** C8. Whatever the request and whatever calls to the store fail, served
    on a well-formed table: the table stays well-formed, so no click count
    is negative; a link of the table after is either new, made by a
    creation with no click, or a link of the table before with the same
    click count, or with exactly one click more, which happens only when
    the request is the redirect of its code; and when a redirect is
    answered, the link of the code has exactly one click more than before
    and is last clicked at the time of the request. *)
Theorem click_count_invariant (gen : string) (rq : request) (db : table)
    (fs : list fault) (lg : list event) :
  wf_table db = true ->
  wf_table (committed (snd (serve P fold base now gen rq
                              (mkState db None fs lg))))
  = true
  /\ (forall r',
        In r' (committed (snd (serve P fold base now gen rq
                                 (mkState db None fs lg)))) ->
        0 <= click_count r'
        /\ ((click_count r' = 0 /\ last_clicked_at r' = None
             /\ (exists b, rq = PostLinks b)
             /\ forall r, In r db -> id r <> id r')
            \/ exists r,
                In r db /\ id r' = id r
                /\ (click_count r' = click_count r
                    \/ (click_count r' = click_count r + 1
                        /\ rq = GetCode (code r)))))
  /\ (forall c s l,
        rq = GetCode c ->
        fst (serve P fold base now gen rq (mkState db None fs lg)) =
        Redirect s l ->
        exists r r',
          In r db /\ code r = c /\ s = 302 /\ l = original_url r
          /\ filter (has_code c)
               (committed (snd (serve P fold base now gen rq
                                  (mkState db None fs lg)))) = [r']
          /\ id r' = id r
          /\ click_count r' = click_count r + 1
          /\ last_clicked_at r' = Some now).
Proof.
  intros W.
  assert (forall r', In r' db ->
            exists r, In r db /\ id r' = id r
              /\ (click_count r' = click_count r
                  \/ (click_count r' = click_count r + 1
                      /\ rq = GetCode (code r)))) as Same.
  { intros r' Hr'. exists r'. auto. }
  assert (forall t, wf_table t = true ->
            forall x, In x t -> 0 <= click_count x) as Pos.
  { intros t Wt x Hx. apply wf_parts in Wt as (_ & _ & Hn).
    rewrite forallb_forall in Hn. apply Z.leb_le. now apply Hn. }
  destruct rq as [b|s|c|c|c].
  - (* creation *)
    destruct (post_links_effect P fold base now gen b db fs lg)
      as [E|(u & He & E)];
      rewrite E; (split; [|split]); try discriminate.
    + exact W.
    + intros r' Hr'. split; [now apply (Pos db) | right; now apply Same].
    + now apply wf_insert.
    + intros r' Hr'. split; [now apply (Pos _ (wf_insert now _ u db W He))|].
      apply in_app_iff in Hr' as [Hr'|[<-|[]]]; [right; now apply Same|].
      left. repeat split; [now exists b|].
      intros r Hr. simpl. pose proof (fresh_id_above db r Hr). lia.
  - (* listing *)
    rewrite get_links_effect. repeat split; try discriminate; try exact W.
    + now apply (Pos db).
    + right. now apply Same.
  - (* statistics of one link *)
    rewrite get_link_effect. repeat split; try discriminate; try exact W.
    + now apply (Pos db).
    + right. now apply Same.
  - (* deletion *)
    destruct (delete_link_effect P fold base now gen c db fs lg) as [E|E];
      rewrite E; (split; [|split]); try discriminate.
    + exact W.
    + intros r' Hr'. split; [now apply (Pos db) | right; now apply Same].
    + now apply wf_delete.
    + intros r' Hr'. apply filter_In in Hr' as [Hr' _].
      split; [now apply (Pos db) | right; now apply Same].
  - (* redirect *)
    destruct (get_code_effect P fold base now gen c db fs lg)
      as [[E R]|(r & rest & F & E & R)]; rewrite E.
    + split; [exact W|]. split.
      * intros r' Hr'. split; [now apply (Pos db) | right; now apply Same].
      * intros c' s l _ Hred. rewrite Hred in R.
        destruct R as [R|R]; discriminate R.
    + assert (In r db /\ code r = c) as [Hr Hc].
      { assert (In r (filter (has_code c) db)) as Hin by (rewrite F; now left).
        apply filter_In in Hin as [Hin Hcode].
        split; [exact Hin | now apply String.eqb_eq in Hcode]. }
      split; [now apply wf_click|]. split.
      * intros r' Hr'.
        split; [now apply (Pos _ (wf_click now (id r) db W))|].
        right. apply in_map_iff in Hr' as (x & <- & Hx).
        destruct (has_id (id r) x) eqn:Hid.
        -- apply Z.eqb_eq in Hid.
           pose proof W as W'. apply wf_parts in W' as (_ & Di & _).
           pose proof (distinct_inj Z.eqb Z.eqb_eq id db x r Di Hx Hr Hid).
           subst x. exists r. split; [exact Hr|]. split; [reflexivity|].
           right. split; [reflexivity | now rewrite Hc].
        -- exists x. auto.
      * intros c' s l [= <-] Hred.
        destruct R as [R|R]; rewrite R in Hred; [|discriminate Hred].
        injection Hred as <- <-. exists r, (click now r).
        rewrite (click_by_code now db r W Hr), <- Hc, filter_click,
          (select_unique db r W Hr).
        repeat split. exact Hr.
Qed.

(** C9. [GET /favicon.ico] is answered 404 at once: no call to the store
    is made and the state of the store, committed or not, is the one
    before, whatever the state and the faults to come. *)
Theorem favicon_not_resolved (gen : string) (w : state) :
  serve P fold base now gen (GetCode "favicon.ico") w = (Send 404 "Not found", w).
Proof. reflexivity. Qed.

(** C10. A custom code made of a valid code between two runs of
    whitespace is trimmed before it is validated and stored: when the URL
    is accepted and no link has the code, the link is created under the
    trimmed code. *)
Theorem create_trims_code (gen ws1 c ws2 u : string) (b : Req.body)
    (db : table) (lg : list event) :
  blank ws1 = true -> blank ws2 = true -> isValidCode c = true ->
  Req.code b = Some (ws1 ++ c ++ ws2)%string ->
  normalizeUrl P (long_url b) = Some u ->
  existsb (has_code c) db = false ->
  serve P fold base now gen (PostLinks b) (mkState db None [] lg) =
  (Json 201 (JLink (shape base (new_row db now c u))),
   mkState (db ++ [new_row db now c u])%list None []
     (Query (InsertLink c u) :: lg))
  /\ code (new_row db now c u) = c.
Proof.
  intros B1 B2 Hc Hb Hu He. split; [|reflexivity].
  assert (pick_code (Req.code b) gen = c) as Hpick.
  { unfold pick_code. rewrite Hb.
    rewrite (trim_padded ws1 c ws2 B1 B2 (valid_code_trimmed c Hc)).
    assert (Js.is_empty (ws1 ++ c ++ ws2) = false) as E.
    { pose proof (valid_code_nonempty c Hc) as Hn.
      destruct ws1; [destruct c; [discriminate | reflexivity] | reflexivity]. }
    simpl. now rewrite E. }
  rewrite (post_links_run P fold base now gen u b db lg Hu);
    rewrite Hpick; [|exact Hc].
  cbv zeta. now rewrite He.
Qed.

End Properties.

(** ** Concrete runs

    In the runs the database folds the ASCII letters and no other
    character ([Js.lower]), as a database of locale C does. *)

Section Runs.

Import Pg.

Lemma redirect_records_click_run :
  exists db',
    serve sample_parses Js.lower None 300 "" (GetCode "abc123") (idle two_links) =
    (Redirect 302 "https://a.com",
     mkState db' None []
       [Release; Query Commit; Query (UpdateClick 1);
        Query (SelectForUpdate "abc123"); Query Begin; Connect])
    /\ filter (has_code "abc123") db' = [click 300 link_a]
    /\ click_count (click 300 link_a) = 0 + 1
    /\ last_clicked_at (click 300 link_a) = Some 300
    /\ (forall x, In x two_links -> code x <> "abc123" -> In x db').
Proof.
  apply (redirect_records_click sample_parses Js.lower None 300 "" two_links link_a []).
  - reflexivity.
  - simpl. now left.
  - discriminate.
Defined.

Lemma redirect_unknown_code_run :
  (exists lg',
     serve sample_parses Js.lower None 300 "" (GetCode "nosuchcode") (idle two_links) =
     (Send 404 "Not found", mkState two_links None [] lg'))
  /\ (forall fs,
        committed (snd (serve sample_parses Js.lower None 300 "" (GetCode "nosuchcode")
                          (mkState two_links None fs []))) = two_links).
Proof.
  apply (redirect_unknown_code sample_parses Js.lower None 300 "" "nosuchcode"
           two_links []).
  reflexivity.
Defined.

Lemma create_generated_collision_run :
  serve sample_parses Js.lower None 300 "abc1234" (PostLinks (body_of "a.com" None))
    (idle [link_c]) =
  (Json 409 (JError "Code already exists"),
   mkState [link_c] None [] [Query (InsertLink "abc1234" "https://a.com")]).
Proof.
  apply (create_generated_collision sample_parses Js.lower None 300 "abc1234"
           "https://a.com" (body_of "a.com" None) [link_c] []);
    reflexivity.
Defined.

(** C3 fails on the code: with no custom code and the generated code
    [abc1234] already taken, the creation answers 409 after its one
    [INSERT]. *)
Lemma create_generated_not_retried :
  is_generated "abc1234" = true
  /\ code_taken "abc1234" [link_c] = true
  /\ serve sample_parses Js.lower None 300 "abc1234"
       (PostLinks (body_of "a.com" None)) (idle [link_c]) =
     (Json 409 (JError "Code already exists"),
      mkState [link_c] None []
        [Query (InsertLink "abc1234" "https://a.com")]).
Proof. repeat split. Qed.

Lemma create_existing_code_run :
  (forall fs,
     committed (snd (serve sample_parses Js.lower None 300 "zzzzzzz"
                       (PostLinks (body_of "a.com" (Some "abc123")))
                       (mkState two_links None fs []))) = two_links)
  /\ (forall u,
        normalizeUrl sample_parses (long_url (body_of "a.com" (Some "abc123")))
        = Some u ->
        serve sample_parses Js.lower None 300 "zzzzzzz"
          (PostLinks (body_of "a.com" (Some "abc123"))) (idle two_links) =
        (Json 409 (JError "Code already exists"),
         mkState two_links None [] [Query (InsertLink "abc123" u)])).
Proof.
  apply (create_existing_code sample_parses Js.lower None 300 "zzzzzzz" "abc123"
           (body_of "a.com" (Some "abc123")) two_links []);
    reflexivity.
Defined.

Lemma list_search_plain_run :
  exists rs lg',
    serve sample_parses Js.lower None 300 "" (GetLinks (Some " ABC")) (idle two_links) =
    (Json 200 (JLinks (map (shape None) rs)), mkState two_links None [] lg')
    /\ Permutation rs (filter (mentions Js.lower "ABC") two_links)
    /\ Sorted newer_first rs
    /\ ("ABC" = "" -> Permutation rs two_links).
Proof.
  apply (list_search_plain sample_parses Js.lower None 300 "" (Some " ABC")
           two_links []).
  reflexivity.
Defined.

(** C5 fails on the code: the term is trimmed before the search, so the
    search for [" ABC"] returns a link that does not contain it; and [_]
    is a wildcard of [ILIKE], so the search for ["_"] returns links that
    have no underscore. *)
Lemma list_search_not_literal :
  (fst (serve sample_parses Js.lower None 300 "" (GetLinks (Some " ABC"))
          (idle two_links)) =
   Json 200 (JLinks [shape None link_a])
   /\ mentions Js.lower " ABC" link_a = false)
  /\ (fst (serve sample_parses Js.lower None 300 "" (GetLinks (Some "_"))
             (idle two_links)) =
      Json 200 (JLinks [shape None link_b; shape None link_a])
      /\ mentions Js.lower "_" link_a = false
      /\ mentions Js.lower "_" link_b = false).
Proof. repeat split. Qed.

Lemma click_count_invariant_run :
  wf_table (committed (snd (serve sample_parses Js.lower None 300 ""
                              (GetCode "abc123") (idle two_links)))) = true
  /\ (forall r',
        In r' (committed (snd (serve sample_parses Js.lower None 300 ""
                                 (GetCode "abc123") (idle two_links)))) ->
        0 <= click_count r'
        /\ ((click_count r' = 0 /\ last_clicked_at r' = None
             /\ (exists b, GetCode "abc123" = PostLinks b)
             /\ forall r, In r two_links -> id r <> id r')
            \/ exists r,
                In r two_links /\ id r' = id r
                /\ (click_count r' = click_count r
                    \/ (click_count r' = click_count r + 1
                        /\ GetCode "abc123" = GetCode (code r)))))
  /\ (forall c s l,
        GetCode "abc123" = GetCode c ->
        fst (serve sample_parses Js.lower None 300 "" (GetCode "abc123")
               (idle two_links)) = Redirect s l ->
        exists r r',
          In r two_links /\ code r = c /\ s = 302 /\ l = original_url r
          /\ filter (has_code c)
               (committed (snd (serve sample_parses Js.lower None 300 ""
                                  (GetCode "abc123") (idle two_links))))
             = [r']
          /\ id r' = id r
          /\ click_count r' = click_count r + 1
          /\ last_clicked_at r' = Some 300).
Proof.
  apply (click_count_invariant sample_parses Js.lower None 300 ""
           (GetCode "abc123") two_links [] []).
  reflexivity.
Defined.

Lemma create_trims_code_run :
  serve sample_parses Js.lower None 300 "zzzzzzz"
    (PostLinks (body_of "a.com" (Some "  newcode1 "))) (idle two_links) =
  (Json 201
     (JLink (shape None (new_row two_links 300 "newcode1" "https://a.com"))),
   mkState (two_links ++ [new_row two_links 300 "newcode1" "https://a.com"])%list
     None [] [Query (InsertLink "newcode1" "https://a.com")])
  /\ code (new_row two_links 300 "newcode1" "https://a.com") = "newcode1".
Proof.
  apply (create_trims_code sample_parses Js.lower None 300 "zzzzzzz" "  " "newcode1"
           " " "https://a.com" (body_of "a.com" (Some "  newcode1 "))
           two_links []);
    reflexivity.
Defined.

End Runs.

(** ** Beyond the routes' contracts: strings and pages *)

Section PageFacts.

Variable P : string -> bool.

Lemma append_empty (s : string) : (s ++ "")%string = s.
Proof. induction s as [|c s IH]; simpl; [reflexivity | now rewrite IH]. Qed.

Lemma trim_fixed (s : string) : trimmed s = true -> Js.trim s = s.
Proof.
  intros T. generalize (trim_padded "" s "" eq_refl eq_refl T).
  simpl. now rewrite append_empty.
Qed.

Lemma trim_is_trimmed (s : string) : trimmed (Js.trim s) = true.
Proof. destruct (trim_split s) as (? & ? & _ & _ & _ & T). exact T. Qed.

Lemma trim_idempotent (s : string) : Js.trim (Js.trim s) = Js.trim s.
Proof. apply trim_fixed, trim_is_trimmed. Qed.

(** What [normalizeUrl] returns: a string with a scheme and with no
    whitespace at its ends. *)
Lemma normalized_shape (raw : option string) (r : string) :
  normalizeUrl P raw = Some r ->
  has_scheme r = true /\ trimmed r = true /\ P r = true
  /\ Js.is_empty r = false.
Proof.
  destruct raw as [s|]; [|discriminate].
  unfold normalizeUrl. destruct (Js.is_empty s); [discriminate|].
  rewrite scheme_re_has_scheme.
  pose proof (trim_is_trimmed s) as T.
  destruct (has_scheme (Js.trim s)) eqn:Hs; cbn [negb];
    destruct (P _) eqn:HP; try discriminate; intros [= <-].
  - repeat split; try assumption.
    destruct (Js.trim s); [discriminate Hs | reflexivity].
  - repeat split; try assumption.
    unfold trimmed. apply andb_true_iff. split; [reflexivity|].
    destruct (Js.trim s) as [|c t] eqn:E; [reflexivity|].
    unfold trimmed in T. apply andb_true_iff in T as [_ T]. exact T.
Qed.

(** X1. A URL that [normalizeUrl] returns is returned as it is when it is
    normalized again. *)
Theorem normalizeUrl_idempotent (raw : option string) (r : string) :
  normalizeUrl P raw = Some r -> normalizeUrl P (Some r) = Some r.
Proof.
  intros H. destruct (normalized_shape raw r H) as (Hs & T & HP & E).
  unfold normalizeUrl. rewrite E, (trim_fixed r T), scheme_re_has_scheme, Hs.
  cbn [negb]. now rewrite HP.
Qed.

Lemma validateUrl_normalizeUrl (u : string) :
  Dashboard.validateUrl P u = true <-> normalizeUrl P (Some u) <> None.
Proof.
  unfold Dashboard.validateUrl, normalizeUrl.
  destruct (Js.is_empty u); [split; [discriminate | intros H; now elim H]|].
  destruct (P _); split; try discriminate; auto.
Qed.

(** X2. The form and the server accept the same URLs: [validateUrl] of
    the dashboard holds exactly when [normalizeUrl] of the server returns a
    URL, the two running the same parser. *)
Theorem form_url_agrees (u : string) :
  Dashboard.validateUrl P u = true <-> exists r, normalizeUrl P (Some u) = Some r.
Proof.
  rewrite validateUrl_normalizeUrl.
  destruct (normalizeUrl P (Some u)) as [r|]; split.
  - intros _. now exists r.
  - discriminate.
  - intros H. now elim H.
  - intros [r Hr]. discriminate.
Qed.

Lemma submit_posted (uv cv : string) (b : Req.body) :
  Dashboard.submit P uv cv = Dashboard.Posted b ->
  (exists u, normalizeUrl P (long_url b) = Some u)
  /\ forall gen, isValidCode gen = true ->
       isValidCode (pick_code (Req.code b) gen) = true.
Proof.
  unfold Dashboard.submit.
  destruct (Dashboard.validateUrl P (Js.trim uv)) eqn:Hu; [|discriminate].
  destruct (Dashboard.validateCode (Js.trim cv)) eqn:Hc; [|discriminate].
  cbn [negb]. intros [= <-]. split.
  - apply validateUrl_normalizeUrl in Hu.
    destruct (normalizeUrl P (Some (Js.trim uv))) as [r|] eqn:Hr;
      [|now elim Hu].
    exists r. unfold long_url. cbn [Req.url Req.targetUrl Req.originalUrl].
    unfold Js.or_else, Js.truthy.
    destruct (Js.is_empty (Js.trim uv)) eqn:E;
      [|cbn [negb]; rewrite E; exact Hr].
    unfold normalizeUrl in Hr. rewrite E in Hr. discriminate.
  - intros gen Hg. cbn [Req.code]. unfold Dashboard.validateCode in Hc.
    unfold Js.or_else, pick_code. simpl.
    destruct (Js.is_empty (Js.trim cv)) eqn:E; simpl; [exact Hg|].
    rewrite E. simpl. now rewrite trim_idempotent.
Qed.

Lemma length_take (n : nat) (s : string) :
  String.length (take n s) = Nat.min n (String.length s).
Proof.
  revert s. induction n as [|n IH]; intros [|c s]; simpl; auto.
Qed.

Lemma length_app (a b : string) :
  String.length (a ++ b) = (String.length a + String.length b)%nat.
Proof. induction a as [|c a IH]; simpl; [reflexivity | now rewrite IH]. Qed.

Lemma take_app (n : nat) (a b : string) :
  String.length a = n -> take n (a ++ b) = a.
Proof.
  revert a. induction n as [|n IH]; intros [|c a] H; simpl in *;
    try discriminate; try reflexivity.
  f_equal. apply IH. lia.
Qed.

(** X3. The target shown in the table of links has 60 characters at
    most; it is the URL itself exactly when the URL has 60 characters at
    most, and its first 57 characters are those of the URL in every
    case. *)
Theorem targetDisplay_bounded (u : string) :
  (String.length (Dashboard.targetDisplay u) <= 60)%nat
  /\ (Dashboard.targetDisplay u = u <-> (String.length u <= 60)%nat)
  /\ take 57 (Dashboard.targetDisplay u) = take 57 u.
Proof.
  unfold Dashboard.targetDisplay.
  destruct (60 <? String.length u)%nat eqn:E.
  - apply Nat.ltb_lt in E.
    assert (String.length (take 57 u ++ "...") = 60%nat) as L.
    { rewrite length_app, length_take.
      change (String.length "...") with 3%nat. lia. }
    repeat split.
    + lia.
    + intros H. rewrite H in L. lia.
    + intros H. lia.
    + apply take_app. rewrite length_take. lia.
  - apply Nat.ltb_ge in E. repeat split; auto.
Qed.

Lemma split_on_nonempty (sep : ascii) (s : string) : split_on sep s <> [].
Proof.
  destruct s as [|c s]; simpl; [discriminate|].
  destruct (Ascii.eqb c sep); [discriminate|].
  destruct (split_on sep s); discriminate.
Qed.

Lemma split_on_free (sep : ascii) (s : string) :
  mem_char sep s = false -> split_on sep s = [s].
Proof.
  induction s as [|c s IH]; simpl; intros H; [reflexivity|].
  apply orb_false_iff in H as [Hc Hs].
  rewrite Ascii.eqb_sym, Hc, (IH Hs). reflexivity.
Qed.

(** Splitting distributes over a separator. *)
Lemma split_on_app (sep : ascii) (a b : string) :
  split_on sep (a ++ String sep b) = (split_on sep a ++ split_on sep b)%list.
Proof.
  induction a as [|c a IH]; simpl.
  - now rewrite Ascii.eqb_refl.
  - destruct (Ascii.eqb c sep); rewrite IH; [reflexivity|].
    pose proof (split_on_nonempty sep a) as Hn.
    destruct (split_on sep a); [contradiction | reflexivity].
Qed.

Lemma split_on_pieces (sep : ascii) (s piece : string) :
  In piece (split_on sep s) -> mem_char sep piece = false.
Proof.
  revert piece. induction s as [|c s IH]; simpl; intros piece H.
  - destruct H as [<-|[]]. reflexivity.
  - destruct (Ascii.eqb c sep) eqn:E.
    + destruct H as [<-|H]; [reflexivity | now apply IH].
    + destruct (split_on sep s) as [|q qs] eqn:Es.
      * destruct H as [<-|[]]. simpl. now rewrite Ascii.eqb_sym, E.
      * destruct H as [<-|H].
        -- simpl. rewrite Ascii.eqb_sym, E. apply IH. now left.
        -- apply IH. now right.
Qed.

Lemma valid_code_no_slash (c : string) :
  isValidCode c = true -> has_slash c = false.
Proof.
  rewrite isValidCode_iff. intros [_ H]. unfold has_slash.
  induction c as [|a c IH]; [reflexivity|].
  cbn [mem_char Js.all_chars] in *.
  apply andb_true_iff in H as [Ha Hc]. rewrite (IH Hc).
  rewrite orb_false_r. destruct (Ascii.eqb "/" a) eqn:E; [|reflexivity].
  apply Ascii.eqb_eq in E. subst a. discriminate.
Qed.

(** X4. The code the statistics page reads from its address is what
    follows the last slash: it has no slash in it, and for an address
    made of any path, a slash and a piece without slash, it is that
    piece. *)
Theorem page_code_last_piece (path piece : string) :
  has_slash (Stats.page_code path) = false
  /\ (has_slash piece = false ->
      Stats.page_code (path ++ String "/" piece) = piece).
Proof.
  unfold Stats.page_code, Js.or_else, Js.truthy. split.
  - pose proof (split_on_nonempty "/" path) as Hn.
    destruct (exists_last Hn) as (l & x & E). rewrite E, last_last.
    destruct (Js.is_empty x); [reflexivity|]. cbn [negb].
    apply (split_on_pieces "/" path). rewrite E. apply in_or_app.
    right. now left.
  - intros H. rewrite split_on_app, (split_on_free _ _ H), last_last.
    destruct piece; reflexivity.
Qed.

(** X5. The link of the table to the statistics of a code leads the
    statistics page to ask for that code: from the address [/code/c] of
    a valid code [c], [loadStats] requests the link of [c]. *)
Theorem stats_link_round_trip (c : string) :
  isValidCode c = true ->
  Stats.loadStats ("/code/" ++ c) = Some (GetLink c).
Proof.
  intros H. unfold Stats.loadStats.
  assert (Stats.page_code ("/code/" ++ c) = c) as ->.
  { change ("/code/" ++ c)%string with ("/code" ++ String "/" c)%string.
    unfold Stats.page_code, Js.or_else, Js.truthy.
    rewrite split_on_app, (split_on_free _ _ (valid_code_no_slash c H)),
      last_last.
    now rewrite (valid_code_nonempty c H). }
  now rewrite (valid_code_nonempty c H).
Qed.

End PageFacts.

(** ** Beyond the routes' contracts: the routes *)

Section MoreRouteFacts.

Import Pg.

Variable P : string -> bool.
Variable fold : ascii -> ascii.
Variable base : option string.
Variable now : Z.

Lemma code_taken_filter (c : string) (t : table) :
  code_taken c t = negb (List.length (filter (has_code c) t) =? 0)%nat.
Proof.
  unfold code_taken. induction t as [|x t IH]; simpl; [reflexivity|].
  destruct (has_code c x); simpl; [reflexivity | exact IH].
Qed.

Lemma filter_out_absent (c : string) (t : table) :
  code_taken c t = false -> filter (fun r => negb (has_code c r)) t = t.
Proof.
  unfold code_taken. induction t as [|x t IH]; simpl; intros H; [reflexivity|].
  apply orb_false_iff in H as [Hx Ht]. rewrite Hx. simpl. now rewrite IH.
Qed.

Lemma filter_out_gone (c : string) (t : table) :
  code_taken c (filter (fun r => negb (has_code c r)) t) = false.
Proof.
  unfold code_taken. induction t as [|x t IH]; simpl; [reflexivity|].
  destruct (has_code c x) eqn:E; simpl; [exact IH|]. now rewrite E.
Qed.

(** The statistics of one link, with every call succeeding. *)
Lemma get_link_run (gen c : string) (db : table) (lg : list event) :
  serve P fold base now gen (GetLink c) (mkState db None [] lg) =
  (match filter (has_code c) db with
   | r :: _ => Json 200 (JLink (shape base r))
   | [] => Json 404 (JError "Not found")
   end,
   mkState db None [] (Query (SelectByCode c) :: lg)).
Proof. open_route. simpl. destruct (filter (has_code c) db); reflexivity. Qed.

(** The deletion, with every call succeeding. *)
Lemma delete_link_run (gen c : string) (db : table) (lg : list event) :
  serve P fold base now gen (DeleteLink c) (mkState db None [] lg) =
  (if code_taken c db then Json 200 JOk else Json 404 (JError "Not found"),
   mkState (filter (fun r => negb (has_code c r)) db) None []
     (Query (DeleteByCode c) :: lg)).
Proof.
  open_route. simpl. fold (code_taken c db). rewrite code_taken_filter.
  destruct (List.length (filter (has_code c) db) =? 0)%nat; reflexivity.
Qed.

(** What the deletion can do, whatever calls fail: the links are gone
    when 200 is answered, and also when the answer of the store is lost. *)
Lemma delete_link_outcome (gen c : string) (db : table) (fs : list fault)
    (lg : list event) :
  let out := serve P fold base now gen (DeleteLink c) (mkState db None fs lg) in
  (committed (snd out) = db
   /\ (fst out = Json 404 (JError "Not found") /\ code_taken c db = false
       \/ fst out = internal_error))
  \/ (committed (snd out) = filter (fun r => negb (has_code c r)) db
      /\ code_taken c db = true
      /\ (fst out = Json 200 JOk \/ fst out = internal_error)).
Proof.
  pose proof (code_taken_filter c db) as T.
  pose proof (filter_out_absent c db) as A.
  open_route.
  destruct (List.length (filter (has_code c) db) =? 0)%nat eqn:E;
    simpl in T; fault_cases; rewrite ?E; simpl; auto.
  all: try (left; split; [now apply A | auto]; fail).
Qed.

(** What the creation does, whatever calls fail: it answers 400 on its
    two validations without a call; past them it stores nothing and
    answers 409 on a code that is taken, or stores nothing and answers
    500, or stores the link and answers 201, or 500 when the answer of
    the store is lost. *)
Lemma post_links_outcome (gen : string) (b : Req.body) (db : table)
    (fs : list fault) (lg : list event) :
  let w := mkState db None fs lg in
  let out := serve P fold base now gen (PostLinks b) w in
  let c := pick_code (Req.code b) gen in
  match normalizeUrl P (long_url b) with
  | None => out = (Json 400 (JError "Invalid URL"), w)
  | Some u =>
      if isValidCode c then
        (committed (snd out) = db
         /\ (fst out = Json 409 (JError "Code already exists")
               /\ code_taken c db = true
             \/ fst out = internal_error))
        \/ (code_taken c db = false
            /\ committed (snd out) = (db ++ [new_row db now c u])%list
            /\ (fst out = Json 201 (JLink (shape base (new_row db now c u)))
                \/ fst out = internal_error))
      else
        out =
        (Json 400
           (JError "Code must be 6–8 characters, letters and numbers only"),
         w)
  end.
Proof.
  cbv zeta. open_route. fold (long_url b).
  destruct (normalizeUrl P (long_url b)) as [u|]; [|reflexivity].
  destruct (isValidCode (pick_code (Req.code b) gen)); [|reflexivity].
  fold (code_taken (pick_code (Req.code b) gen) db).
  destruct (code_taken (pick_code (Req.code b) gen) db) eqn:E;
    fault_cases; unfold code_taken in E; rewrite ?E; simpl; auto.
Qed.

(** With no fault to come and no transaction open, a request leaves the
    session as it found it. *)
Lemma serve_settled (gen : string) (rq : request) (db : table)
    (lg : list event) :
  let out := serve P fold base now gen rq (mkState db None [] lg) in
  txn (snd out) = None /\ faults (snd out) = [].
Proof.
  cbv zeta. destruct rq as [b|s|c|c|c]; open_route.
  - destruct (normalizeUrl P _); [|now split].
    destruct (isValidCode _); [|now split]. simpl.
    destruct (existsb _ db); now split.
  - destruct (negb (Js.is_empty (search_term s))); simpl; [|now split].
    destruct (Like.parse _); now split.
  - simpl. destruct (filter (has_code c) db); now split.
  - simpl. destruct (List.length (filter (has_code c) db) =? 0)%nat;
      now split.
  - destruct (String.eqb c "favicon.ico"); [now split|]. simpl.
    destruct (filter (has_code c) db); now split.
Qed.

End MoreRouteFacts.

(** ** Beyond the routes' contracts: properties *)

Section MoreProperties.

Import Pg.

Variable P : string -> bool.
Variable fold : ascii -> ascii.
Variable base : option string.
Variable now : Z.

Lemma normalize_falsy (v : option string) :
  Js.truthy v = false -> normalizeUrl P v = None.
Proof.
  destruct v as [s|]; [|reflexivity]. simpl. intros H.
  apply negb_false_iff in H. now rewrite H.
Qed.

Lemma valid_code_not_favicon (c : string) :
  isValidCode c = true -> String.eqb c "favicon.ico" = false.
Proof.
  intros H. destruct (String.eqb c "favicon.ico") eqn:E; [|reflexivity].
  apply String.eqb_eq in E. subst c. discriminate H.
Qed.

Lemma select_appended (c u : string) (t0 : Z) (db : table) :
  code_taken c db = false ->
  filter (has_code c) (db ++ [new_row db t0 c u])%list = [new_row db t0 c u].
Proof.
  intros H. rewrite filter_app, (select_absent c db H). simpl.
  unfold has_code. simpl. now rewrite String.eqb_refl.
Qed.

Lemma click_appended (c u : string) (t0 t1 : Z) (db : table) :
  map (fun x => if has_id (id (new_row db t0 c u)) x then click t1 x else x)
    (db ++ [new_row db t0 c u])%list =
  (db ++ [click t1 (new_row db t0 c u)])%list.
Proof.
  rewrite map_app. f_equal.
  - rewrite <- (map_id db) at 2. apply map_ext_in. intros x Hx.
    unfold has_id. cbn [id new_row].
    pose proof (fresh_id_above db x Hx) as Hlt.
    destruct (id x =? fresh_id db) eqn:E; [|reflexivity].
    apply Z.eqb_eq in E. lia.
  - cbn [map]. unfold has_id. now rewrite Z.eqb_refl.
Qed.

Lemma select_clicked (c u : string) (t0 t1 : Z) (db : table) :
  code_taken c db = false ->
  filter (has_code c) (db ++ [click t1 (new_row db t0 c u)])%list =
  [click t1 (new_row db t0 c u)].
Proof.
  intros H. rewrite filter_app, (select_absent c db H). simpl.
  unfold has_code. simpl. now rewrite String.eqb_refl.
Qed.

(** X6. A creation whose body has none of the fields [url], [targetUrl]
    and [originalUrl], or has them empty, is answered 400 "Invalid URL"
    with no call to the store, whatever the state of the store. *)
Theorem create_without_url (gen : string) (b : Req.body) (w : state) :
  Js.truthy (Req.url b) = false ->
  Js.truthy (Req.targetUrl b) = false ->
  Js.truthy (Req.originalUrl b) = false ->
  serve P fold base now gen (PostLinks b) w = (Json 400 (JError "Invalid URL"), w).
Proof.
  intros H1 H2 H3.
  assert (normalizeUrl P (long_url b) = None) as H.
  { apply normalize_falsy. unfold long_url, Js.or_else.
    rewrite H1, H2. exact H3. }
  open_route. fold (long_url b). now rewrite H.
Qed.

(** X7. A custom code that is not empty and whose trimmed form is not a
    valid code (one made of whitespace only, for instance) is answered 400
    with no call to the store; no generated code takes its place. *)
Theorem create_rejects_custom_code (gen c u : string) (b : Req.body)
    (w : state) :
  Req.code b = Some c -> Js.is_empty c = false ->
  isValidCode (Js.trim c) = false ->
  normalizeUrl P (long_url b) = Some u ->
  serve P fold base now gen (PostLinks b) w =
  (Json 400 (JError "Code must be 6–8 characters, letters and numbers only"),
   w).
Proof.
  intros Hb Hc Hv Hu. open_route. fold (long_url b). rewrite Hu, Hb.
  unfold pick_code. cbn [Js.truthy]. rewrite Hc. cbn [negb]. now rewrite Hv.
Qed.

(** X8. With no custom code, an accepted URL and a generated code that
    no link has, the creation answers 201 and stores one new link under
    the generated code of 7 characters, with no click, and with the short
    URL made of the base, a slash and the code. *)
Theorem create_with_generated_code (gen u : string) (b : Req.body)
    (db : table) (lg : list event) :
  Js.truthy (Req.code b) = false ->
  is_generated gen = true ->
  normalizeUrl P (long_url b) = Some u ->
  code_taken gen db = false ->
  serve P fold base now gen (PostLinks b) (mkState db None [] lg) =
  (Json 201 (JLink (shape base (new_row db now gen u))),
   mkState (db ++ [new_row db now gen u])%list None []
     (Query (InsertLink gen u) :: lg))
  /\ String.length (Api.code (shape base (new_row db now gen u))) = 7%nat
  /\ Api.clickCount (shape base (new_row db now gen u)) = 0
  /\ Api.lastClickedAt (shape base (new_row db now gen u)) = None
  /\ Api.originalUrl (shape base (new_row db now gen u)) = u.
Proof.
  intros Hc Hg Hu He.
  assert (pick_code (Req.code b) gen = gen) as Hpick.
  { unfold pick_code. destruct (Req.code b); [now rewrite Hc | reflexivity]. }
  rewrite (post_links_run P fold base now gen u b db lg Hu);
    rewrite Hpick; [|now apply generated_valid].
  cbv zeta. unfold code_taken in He. rewrite He.
  repeat split. simpl.
  unfold is_generated in Hg. apply andb_true_iff in Hg as [Hl _].
  now apply Nat.eqb_eq in Hl.
Qed.

(** X9. A link that was created is found: after a creation answered 201
    for the code [c], the statistics of [c] answer 200 with the link as it
    was stored, with the normalized URL and no click. *)
Theorem create_then_lookup (gen gen' u : string) (t1 : Z) (b : Req.body)
    (db : table) (lg : list event) :
  normalizeUrl P (long_url b) = Some u ->
  isValidCode (pick_code (Req.code b) gen) = true ->
  code_taken (pick_code (Req.code b) gen) db = false ->
  fst (serve P fold base t1 gen' (GetLink (pick_code (Req.code b) gen))
         (snd (serve P fold base now gen (PostLinks b) (mkState db None [] lg)))) =
  Json 200
    (JLink (shape base (new_row db now (pick_code (Req.code b) gen) u)))
  /\ fst (serve P fold base now gen (PostLinks b) (mkState db None [] lg)) =
     Json 201
       (JLink (shape base (new_row db now (pick_code (Req.code b) gen) u))).
Proof.
  intros Hu Hv He.
  rewrite (post_links_run P fold base now gen u b db lg Hu Hv). cbv zeta.
  unfold code_taken in He. rewrite He. cbn [fst snd].
  rewrite get_link_run, select_appended by exact He. now split.
Qed.

(** X10. A click shows in the statistics: after a creation answered 201
    for the code [c], the redirect of [c] answers 302 to the normalized
    URL, and the statistics of [c] then show one click and the time of the
    redirect. *)
Theorem create_redirect_lookup (gen g1 g2 u : string) (t1 t2 : Z)
    (b : Req.body) (db : table) (lg : list event) :
  normalizeUrl P (long_url b) = Some u ->
  isValidCode (pick_code (Req.code b) gen) = true ->
  code_taken (pick_code (Req.code b) gen) db = false ->
  exists l,
    fst (serve P fold base t1 g1 (GetCode (pick_code (Req.code b) gen))
           (snd (serve P fold base now gen (PostLinks b)
                   (mkState db None [] lg)))) =
    Redirect 302 u
    /\ fst (serve P fold base t2 g2 (GetLink (pick_code (Req.code b) gen))
             (snd (serve P fold base t1 g1 (GetCode (pick_code (Req.code b) gen))
                     (snd (serve P fold base now gen (PostLinks b)
                             (mkState db None [] lg)))))) =
       Json 200 (JLink l)
    /\ Api.clickCount l = 1 /\ Api.lastClickedAt l = Some t1
    /\ Api.originalUrl l = u
    /\ Api.code l = pick_code (Req.code b) gen.
Proof.
  intros Hu Hv He.
  exists (shape base
            (click t1 (new_row db now (pick_code (Req.code b) gen) u))).
  rewrite (post_links_run P fold base now gen u b db lg Hu Hv). cbv zeta.
  unfold code_taken in He. rewrite He. cbn [fst snd].
  rewrite (get_code_found P fold base t1 g1 _ _ [] _ _
             (valid_code_not_favicon _ Hv)
             (select_appended _ u now db He)).
  cbn [fst snd]. rewrite click_appended, get_link_run.
  rewrite select_clicked by exact He. repeat split.
Qed.

(** X11. A link that was deleted is gone: when some link has the code
    [c], the deletion answers 200 and removes the links of that code and no
    other; after it the statistics of [c], the redirect of [c] and a second
    deletion of [c] all answer 404. *)
Theorem delete_then_gone (gen g1 c : string) (t1 : Z) (db : table)
    (lg : list event) :
  code_taken c db = true ->
  exists lg',
    serve P fold base now gen (DeleteLink c) (mkState db None [] lg) =
    (Json 200 JOk,
     mkState (filter (fun r => negb (has_code c r)) db) None [] lg')
    /\ (forall x, In x db -> code x <> c ->
        In x (filter (fun r => negb (has_code c r)) db))
    /\ fst (serve P fold base t1 g1 (GetLink c)
             (mkState (filter (fun r => negb (has_code c r)) db) None [] lg'))
       = Json 404 (JError "Not found")
    /\ fst (serve P fold base t1 g1 (GetCode c)
             (mkState (filter (fun r => negb (has_code c r)) db) None [] lg'))
       = Send 404 "Not found"
    /\ fst (serve P fold base t1 g1 (DeleteLink c)
             (mkState (filter (fun r => negb (has_code c r)) db) None [] lg'))
       = Json 404 (JError "Not found").
Proof.
  intros He. eexists. rewrite delete_link_run, He.
  split; [reflexivity|].
  pose proof (filter_out_gone c db) as G.
  pose proof (select_absent c _ G) as F.
  repeat split.
  - intros x Hx Hne. apply filter_In. split; [exact Hx|].
    unfold has_code. apply String.eqb_neq in Hne. now rewrite Hne.
  - now rewrite get_link_run, F.
  - destruct (String.eqb c "favicon.ico") eqn:Hfav.
    + unfold serve, get_code. now rewrite Hfav.
    + now rewrite (get_code_missing P fold base t1 g1 c _ _ Hfav F).
  - now rewrite delete_link_run, G.
Qed.

(** X12. For a code that no link has, the statistics and the deletion
    answer 404, and the table is the one before, also when calls to the
    store fail. *)
Theorem unknown_code_not_found (gen c : string) (db : table)
    (lg : list event) :
  code_taken c db = false ->
  serve P fold base now gen (GetLink c) (mkState db None [] lg) =
  (Json 404 (JError "Not found"),
   mkState db None [] (Query (SelectByCode c) :: lg))
  /\ serve P fold base now gen (DeleteLink c) (mkState db None [] lg) =
     (Json 404 (JError "Not found"),
      mkState db None [] (Query (DeleteByCode c) :: lg))
  /\ (forall fs,
        committed (snd (serve P fold base now gen (GetLink c)
                          (mkState db None fs lg))) = db
        /\ committed (snd (serve P fold base now gen (DeleteLink c)
                             (mkState db None fs lg))) = db).
Proof.
  intros He. repeat split.
  - now rewrite get_link_run, (select_absent c db He).
  - now rewrite delete_link_run, He, (filter_out_absent c db He).
  - apply get_link_effect.
  - destruct (delete_link_outcome P fold base now gen c db fs lg)
      as [[E _]|(_ & E & _)]; [exact E|].
    rewrite He in E. discriminate.
Qed.

(** X13. In a well-formed table the statistics of the code of a link
    answer 200 with that link, its short URL being the base, a slash and
    the code; the table is the one before, also when calls to the store
    fail. *)
Theorem lookup_returns_link (gen : string) (db : table) (r : row)
    (lg : list event) :
  wf_table db = true -> In r db ->
  serve P fold base now gen (GetLink (code r)) (mkState db None [] lg) =
  (Json 200 (JLink (shape base r)),
   mkState db None [] (Query (SelectByCode (code r)) :: lg))
  /\ Api.shortUrl (shape base r) =
     ((match base with
       | Some s => if Js.is_empty s then "" else s
       | None => ""
       end) ++ "/" ++ code r)%string
  /\ (forall fs,
        committed (snd (serve P fold base now gen (GetLink (code r))
                          (mkState db None fs lg))) = db).
Proof.
  intros W Hr. repeat split.
  - now rewrite get_link_run, (select_unique db r W Hr).
  - unfold shape, Js.or_else, Js.truthy. cbn [Api.shortUrl].
    destruct base as [s|]; [|reflexivity]. now destruct (Js.is_empty s).
  - intros fs. apply get_link_effect.
Qed.

Lemma search_tail_parses (t : string) : Like.parse (t ++ "%") <> None.
Proof.
  intros H. apply (search_pattern_parses t).
  change ("%" ++ t ++ "%")%string with (String "%" (t ++ "%")).
  rewrite parse_step. simpl. now rewrite H.
Qed.

Lemma order_desc_in (l : list row) (r : row) :
  In r (order_desc l) -> In r l.
Proof. apply Permutation_in, order_desc_perm. Qed.

Lemma good_new_row (gen u : string) (raw : option string) (c : string)
    (t : table) :
  normalizeUrl P raw = Some u -> isValidCode c = true ->
  good_link P (new_row t now c u) = true.
Proof.
  intros Hu Hc. destruct (normalized_shape P raw u Hu) as (Hs & _ & HP & _).
  unfold good_link. cbn [code original_url new_row]. now rewrite Hc, Hs, HP.
Qed.

(** A request keeps a well-formed table well-formed, whatever calls
    fail. *)
Lemma serve_wf (gen : string) (rq : request) (db : table) (fs : list fault)
    (lg : list event) :
  wf_table db = true ->
  wf_table (committed (snd (serve P fold base now gen rq (mkState db None fs lg))))
  = true.
Proof.
  intros W. destruct rq as [b|s|c|c|c].
  - destruct (post_links_effect P fold base now gen b db fs lg) as [E|(u & He & E)];
      rewrite E; [exact W | now apply wf_insert].
  - now rewrite get_links_effect.
  - now rewrite get_link_effect.
  - destruct (delete_link_effect P fold base now gen c db fs lg) as [E|E];
      rewrite E; [exact W | now apply wf_delete].
  - destruct (get_code_effect P fold base now gen c db fs lg)
      as [[E _]|(r & rest & _ & E & _)]; rewrite E;
      [exact W | now apply wf_click].
Qed.

(** A request keeps the links of the table good, whatever calls fail. *)
Lemma serve_good (gen : string) (rq : request) (db : table) (fs : list fault)
    (lg : list event) :
  forallb (good_link P) db = true ->
  forallb (good_link P)
    (committed (snd (serve P fold base now gen rq (mkState db None fs lg))))
  = true.
Proof.
  intros G. destruct rq as [b|s|c|c|c].
  - pose proof (post_links_outcome P fold base now gen b db fs lg) as O.
    cbv zeta in O.
    destruct (normalizeUrl P (long_url b)) as [u|] eqn:Hu;
      [|now rewrite O].
    destruct (isValidCode (pick_code (Req.code b) gen)) eqn:Hv;
      [|now rewrite O].
    destruct O as [[E _]|(_ & E & _)]; rewrite E; [exact G|].
    rewrite forallb_app, G. cbn [forallb].
    now rewrite (good_new_row gen u _ _ db Hu Hv).
  - now rewrite get_links_effect.
  - now rewrite get_link_effect.
  - destruct (delete_link_effect P fold base now gen c db fs lg) as [E|E];
      rewrite E; [exact G|].
    rewrite forallb_forall in *. intros x Hx.
    apply filter_In in Hx as [Hx _]. now apply G.
  - destruct (get_code_effect P fold base now gen c db fs lg)
      as [[E _]|(r & rest & _ & E & _)]; rewrite E; [exact G|].
    rewrite forallb_forall in *. intros y Hy.
    apply in_map_iff in Hy as (x & <- & Hx). specialize (G x Hx).
    now destruct (has_id (id r) x).
Qed.

(** X14. The answer of a creation and what it stores go together,
    whatever calls to the store fail, lost answers included: either the
    table is the one before, and the answer is 400, 409 or 500; or the URL
    and the code passed their validations, no link had the code, the table
    has the one new link at its end, and the answer is 201 with that link,
    or 500.  So 201 is never answered without the link stored, and 400 and
    409 never with a link stored. *)
Theorem create_answer_and_store (gen : string) (b : Req.body) (db : table)
    (fs : list fault) (lg : list event) :
  (committed (snd (serve P fold base now gen (PostLinks b)
                     (mkState db None fs lg))) = db
   /\ (fst (serve P fold base now gen (PostLinks b) (mkState db None fs lg))
       = Json 400 (JError "Invalid URL")
       \/ fst (serve P fold base now gen (PostLinks b)
                 (mkState db None fs lg))
          = Json 400
              (JError "Code must be 6–8 characters, letters and numbers only")
       \/ fst (serve P fold base now gen (PostLinks b)
                 (mkState db None fs lg))
          = Json 409 (JError "Code already exists")
       \/ fst (serve P fold base now gen (PostLinks b)
                 (mkState db None fs lg))
          = Json 500 (JError "Internal server error")))
  \/ (exists u,
        normalizeUrl P (long_url b) = Some u
        /\ isValidCode (pick_code (Req.code b) gen) = true
        /\ code_taken (pick_code (Req.code b) gen) db = false
        /\ committed (snd (serve P fold base now gen (PostLinks b)
                             (mkState db None fs lg))) =
           (db ++ [new_row db now (pick_code (Req.code b) gen) u])%list
        /\ (fst (serve P fold base now gen (PostLinks b)
                   (mkState db None fs lg)) =
            Json 201
              (JLink (shape base
                        (new_row db now (pick_code (Req.code b) gen) u)))
            \/ fst (serve P fold base now gen (PostLinks b)
                      (mkState db None fs lg)) =
               Json 500 (JError "Internal server error"))).
Proof.
  pose proof (post_links_outcome P fold base now gen b db fs lg) as O.
  cbv zeta in O.
  destruct (normalizeUrl P (long_url b)) as [u|] eqn:Hu;
    [|left; rewrite O; split; [reflexivity | auto]].
  destruct (isValidCode (pick_code (Req.code b) gen)) eqn:Hv;
    [|left; rewrite O; split; [reflexivity | auto]].
  destruct O as [[E [[R _]|R]]|(He & E & R)].
  - left. split; [exact E | auto].
  - left. split; [exact E | auto].
  - right. exists u. auto.
Qed.

(** X15. Every request keeps the links of the table good, whatever calls
    to the store fail: when each link has a valid code and a URL with a
    scheme that parses before the request, each has after it. *)
Theorem stored_links_stay_good (gen : string) (rq : request) (db : table)
    (fs : list fault) (lg : list event) :
  forallb (good_link P) db = true ->
  forallb (good_link P)
    (committed (snd (serve P fold base now gen rq (mkState db None fs lg))))
  = true.
Proof. apply serve_good. Qed.

(** X16. No search term makes the pattern of the listing ill-formed,
    wildcards and backslashes included; and for a term without the
    character of code 0, with the store answering, the listing answers
    200, the links it returns are links of the table, newest first, and
    the table is the one before. *)
Theorem listing_never_fails (gen : string) (search : option string)
    (db : table) (lg : list event) :
  has_nul (search_term search) = false ->
  Like.parse ("%" ++ search_term search ++ "%") <> None
  /\ exists rs lg',
       serve P fold base now gen (GetLinks search) (mkState db None [] lg) =
       (Json 200 (JLinks (map (shape base) rs)), mkState db None [] lg')
       /\ (forall r, In r rs -> In r db)
       /\ Sorted newer_first rs.
Proof.
  intros _. split; [apply search_pattern_parses|].
  open_route.
  destruct (Js.is_empty (search_term search)) eqn:E; simpl.
  - exists (order_desc db). eexists. split; [reflexivity|]. split.
    + apply order_desc_in.
    + apply order_desc_sorted.
  - pose proof (search_tail_parses (search_term search)) as Hp.
    destruct (Like.parse (search_term search ++ "%")) as [p|]; [|now elim Hp].
    simpl. eexists. eexists. split; [reflexivity|]. split.
    + intros r Hr. apply order_desc_in in Hr.
      now apply filter_In in Hr as [Hr _].
    + apply order_desc_sorted.
Qed.

(** X17. What the form sends, the server does not answer with 400: for
    a submission that passes [validateUrl] and [validateCode] of the
    dashboard, and a generated code that is valid, the creation answers
    201, 409 or 500, whatever calls to the store fail (the form and the
    server running the same URL parser). *)
Theorem form_submission_accepted (uv cv gen : string) (b : Req.body)
    (db : table) (fs : list fault) (lg : list event) :
  Dashboard.submit P uv cv = Dashboard.Posted b ->
  isValidCode gen = true ->
  (exists l,
     fst (serve P fold base now gen (PostLinks b) (mkState db None fs lg)) =
     Json 201 (JLink l))
  \/ fst (serve P fold base now gen (PostLinks b) (mkState db None fs lg)) =
     Json 409 (JError "Code already exists")
  \/ fst (serve P fold base now gen (PostLinks b) (mkState db None fs lg)) =
     Json 500 (JError "Internal server error").
Proof.
  intros Hs Hg. destruct (submit_posted P uv cv b Hs) as [[u Hu] Hv].
  specialize (Hv gen Hg).
  pose proof (post_links_outcome P fold base now gen b db fs lg) as O.
  cbv zeta in O. rewrite Hu, Hv in O.
  destruct O as [[_ [[R _]|R]]|(_ & _ & [R|R])]; rewrite R; eauto.
Qed.

End MoreProperties.

(** ** Requests in a row *)

Section Sequences.

Import Pg.

Variable P : string -> bool.
Variable fold : ascii -> ascii.
Variable base : option string.

Lemma last_cons_default {A : Type} (x : A) (l : list A) (d d' : A) :
  last (x :: l) d = last (x :: l) d'.
Proof.
  revert x. induction l as [|y l IH]; intros x; [reflexivity|].
  change (last (y :: l) d = last (y :: l) d'). apply IH.
Qed.

(** X18. Served one after the other with the store answering, requests
    keep a table well-formed and its links good, and leave no transaction
    open: from a table with unique codes and identifiers, clicks not
    negative, valid codes and URLs with a scheme that parse, every
    sequence of requests ends in such a table; each request is answered. *)
Theorem requests_keep_store_sound (rqs : list (Z * string * request))
    (db : table) (lg : list event) :
  wf_table db = true ->
  forallb (good_link P) db = true ->
  wf_table (committed (snd (serve_seq P fold base rqs (mkState db None [] lg))))
  = true
  /\ forallb (good_link P)
       (committed (snd (serve_seq P fold base rqs (mkState db None [] lg))))
     = true
  /\ txn (snd (serve_seq P fold base rqs (mkState db None [] lg))) = None
  /\ List.length (fst (serve_seq P fold base rqs (mkState db None [] lg))) =
     List.length rqs.
Proof.
  revert db lg. induction rqs as [|[[t g] rq] rest IH]; intros db lg W G.
  - simpl. auto.
  - cbn [serve_seq].
    pose proof (serve_wf P fold base t g rq db [] lg W) as W1.
    pose proof (serve_good P fold base t g rq db [] lg G) as G1.
    destruct (serve_settled P fold base t g rq db lg) as [T1 F1].
    destruct (serve P fold base t g rq (mkState db None [] lg)) as [r [db1 tx1 fs1 lg1]].
    cbn [snd committed txn faults] in *. subst tx1 fs1.
    destruct (IH db1 lg1 W1 G1) as (W2 & G2 & T2 & L2).
    destruct (serve_seq P fold base rest (mkState db1 None [] lg1)) as [rs w2].
    cbn [fst snd] in *. repeat split; auto. simpl. now rewrite L2.
Qed.

(** X19. Clicks add up: in a well-formed table holding a link [r] whose
    code is not [favicon.ico], redirects of the code of [r] served one
    after the other at the times [ts] are all answered 302 to the URL of
    [r]; after them the link of that code has as many clicks more as
    there were redirects, and is last clicked at the time of the last (or
    as before when there was none). *)
Theorem redirects_add_up (gen : string) (ts : list Z) (db : table) (r : row)
    (lg : list event) :
  wf_table db = true -> In r db -> code r <> "favicon.ico" ->
  fst (serve_seq P fold base (map (fun t => (t, gen, GetCode (code r))) ts)
         (mkState db None [] lg)) =
  map (fun _ => Redirect 302 (original_url r)) ts
  /\ exists r',
       filter (has_code (code r))
         (committed
            (snd (serve_seq P fold base
                    (map (fun t => (t, gen, GetCode (code r))) ts)
                    (mkState db None [] lg)))) = [r']
       /\ click_count r' = click_count r + Z.of_nat (List.length ts)
       /\ original_url r' = original_url r
       /\ id r' = id r
       /\ last_clicked_at r' = last (map Some ts) (last_clicked_at r).
Proof.
  revert db r lg. induction ts as [|t ts IH]; intros db r lg W Hr Hfav.
  - simpl. split; [reflexivity|]. exists r.
    rewrite (select_unique db r W Hr). repeat split; try lia.
  - cbn [map serve_seq].
    pose proof Hfav as Hf. apply String.eqb_neq in Hf.
    rewrite (get_code_found P fold base t gen _ db [] r lg Hf
               (select_unique db r W Hr)).
    assert (wf_table (map (fun x => if has_id (id r) x then click t x else x)
                        db) = true) as W1 by now apply wf_click.
    assert (In (click t r)
              (map (fun x => if has_id (id r) x then click t x else x) db))
      as Hr1.
    { apply in_map_iff. exists r. split; [|exact Hr].
      unfold has_id. now rewrite Z.eqb_refl. }
    specialize (IH _ (click t r) (Release :: Query Commit
                   :: Query (UpdateClick (id r))
                   :: Query (SelectForUpdate (code r)) :: Query Begin
                   :: Connect :: lg) W1 Hr1 Hfav).
    cbn [code original_url id click_count click] in IH.
    destruct IH as (R & r' & F & Hc & Hu & Hi & Hl).
    destruct (serve_seq P fold base _ _) as [rs w2]. cbn [fst snd] in *.
    split; [now rewrite R|].
    exists r'. split; [exact F|].
    repeat split; try assumption.
    + rewrite Hc. cbn [List.length]. lia.
    + rewrite Hl. destruct ts as [|t' ts']; [reflexivity|].
      cbn [map last_clicked_at click].
      change (last (Some t :: Some t' :: map Some ts') (last_clicked_at r))
        with (last (Some t' :: map Some ts') (last_clicked_at r)).
      apply last_cons_default.
Qed.

End Sequences.

(** ** More concrete runs *)

Section MoreRuns.

Import Pg.

Lemma normalizeUrl_idempotent_run :
  normalizeUrl sample_parses (Some "https://a.com") = Some "https://a.com".
Proof.
  apply (normalizeUrl_idempotent sample_parses (Some "  a.com ")
           "https://a.com").
  reflexivity.
Defined.

Lemma page_code_last_piece_run :
  Stats.page_code ("/code" ++ String "/" "abc123") = "abc123".
Proof.
  apply (proj2 (page_code_last_piece "/code" "abc123")). reflexivity.
Defined.

Lemma stats_link_round_trip_run :
  Stats.loadStats ("/code/" ++ "Zed4567") = Some (GetLink "Zed4567").
Proof. apply (stats_link_round_trip "Zed4567"). reflexivity. Defined.

Lemma create_without_url_run :
  serve sample_parses Js.lower None 300 "Zz12345"
    (PostLinks (Req.mkBody None (Some "") None (Some "abc123")))
    (idle two_links) =
  (Json 400 (JError "Invalid URL"), idle two_links).
Proof.
  apply (create_without_url sample_parses Js.lower None 300 "Zz12345"
           (Req.mkBody None (Some "") None (Some "abc123")) (idle two_links));
    reflexivity.
Defined.

Lemma create_rejects_custom_code_run :
  serve sample_parses Js.lower None 300 "Zz12345"
    (PostLinks (body_of "a.com" (Some "   "))) (idle two_links) =
  (Json 400 (JError "Code must be 6–8 characters, letters and numbers only"),
   idle two_links).
Proof.
  apply (create_rejects_custom_code sample_parses Js.lower None 300 "Zz12345" "   "
           "https://a.com" (body_of "a.com" (Some "   ")) (idle two_links));
    reflexivity.
Defined.

Lemma create_with_generated_code_run :
  serve sample_parses Js.lower None 300 "Zz12345"
    (PostLinks (body_of "example.com" None)) (idle two_links) =
  (Json 201
     (JLink (shape None
               (new_row two_links 300 "Zz12345" "https://example.com"))),
   mkState (two_links ++ [new_row two_links 300 "Zz12345"
                            "https://example.com"])%list
     None [] [Query (InsertLink "Zz12345" "https://example.com")]).
Proof.
  apply (proj1 (create_with_generated_code sample_parses Js.lower None 300 "Zz12345"
                  "https://example.com" (body_of "example.com" None)
                  two_links [] eq_refl eq_refl eq_refl eq_refl)).
Defined.

Lemma create_then_lookup_run :
  fst (serve sample_parses Js.lower None 400 "" (GetLink "newcode1")
         (snd (serve sample_parses Js.lower None 300 "Zz12345"
                 (PostLinks (body_of "a.com" (Some "newcode1")))
                 (idle two_links)))) =
  Json 200
    (JLink (shape None (new_row two_links 300 "newcode1" "https://a.com"))).
Proof.
  apply (proj1 (create_then_lookup sample_parses Js.lower None 300 "Zz12345" ""
                  "https://a.com" 400 (body_of "a.com" (Some "newcode1"))
                  two_links [] eq_refl eq_refl eq_refl)).
Defined.

Lemma create_redirect_lookup_run :
  exists l,
    fst (serve sample_parses Js.lower None 400 "" (GetCode "newcode1")
           (snd (serve sample_parses Js.lower None 300 "Zz12345"
                   (PostLinks (body_of "a.com" (Some "newcode1")))
                   (idle two_links)))) =
    Redirect 302 "https://a.com"
    /\ fst (serve sample_parses Js.lower None 500 "" (GetLink "newcode1")
             (snd (serve sample_parses Js.lower None 400 "" (GetCode "newcode1")
                     (snd (serve sample_parses Js.lower None 300 "Zz12345"
                             (PostLinks (body_of "a.com" (Some "newcode1")))
                             (idle two_links)))))) =
       Json 200 (JLink l)
    /\ Api.clickCount l = 1 /\ Api.lastClickedAt l = Some 400
    /\ Api.originalUrl l = "https://a.com"
    /\ Api.code l = "newcode1".
Proof.
  apply (create_redirect_lookup sample_parses Js.lower None 300 "Zz12345" "" ""
           "https://a.com" 400 500 (body_of "a.com" (Some "newcode1"))
           two_links []);
    reflexivity.
Defined.

Lemma delete_then_gone_run :
  exists lg',
    serve sample_parses Js.lower None 300 "" (DeleteLink "abc123") (idle two_links) =
    (Json 200 JOk,
     mkState (filter (fun r => negb (has_code "abc123" r)) two_links)
       None [] lg')
    /\ (forall x, In x two_links -> code x <> "abc123" ->
        In x (filter (fun r => negb (has_code "abc123" r)) two_links))
    /\ fst (serve sample_parses Js.lower None 400 "" (GetLink "abc123")
             (mkState (filter (fun r => negb (has_code "abc123" r)) two_links)
                None [] lg'))
       = Json 404 (JError "Not found")
    /\ fst (serve sample_parses Js.lower None 400 "" (GetCode "abc123")
             (mkState (filter (fun r => negb (has_code "abc123" r)) two_links)
                None [] lg'))
       = Send 404 "Not found"
    /\ fst (serve sample_parses Js.lower None 400 "" (DeleteLink "abc123")
             (mkState (filter (fun r => negb (has_code "abc123" r)) two_links)
                None [] lg'))
       = Json 404 (JError "Not found").
Proof.
  apply (delete_then_gone sample_parses Js.lower None 300 "" "" "abc123" 400
           two_links []).
  reflexivity.
Defined.

Lemma unknown_code_not_found_run :
  serve sample_parses Js.lower None 300 "" (GetLink "nosuch1") (idle two_links) =
  (Json 404 (JError "Not found"),
   mkState two_links None [] [Query (SelectByCode "nosuch1")]).
Proof.
  apply (proj1 (unknown_code_not_found sample_parses Js.lower None 300 "" "nosuch1"
                  two_links [] eq_refl)).
Defined.

Lemma lookup_returns_link_run :
  serve sample_parses Js.lower None 300 "" (GetLink "Zed4567") (idle two_links) =
  (Json 200 (JLink (shape None link_b)),
   mkState two_links None [] [Query (SelectByCode "Zed4567")]).
Proof.
  apply (proj1 (lookup_returns_link sample_parses Js.lower None 300 "" two_links
                  link_b [] eq_refl (or_intror (or_introl eq_refl)))).
Defined.

Lemma stored_links_stay_good_run :
  forallb (good_link sample_parses)
    (committed (snd (serve sample_parses Js.lower None 300 "Zz12345"
                       (PostLinks (body_of "a.com" None))
                       (mkState two_links None [Fine; Lost] []))))
  = true.
Proof.
  apply (stored_links_stay_good sample_parses Js.lower None 300 "Zz12345"
           (PostLinks (body_of "a.com" None)) two_links [Fine; Lost] []).
  reflexivity.
Defined.

Lemma listing_never_fails_run :
  Like.parse ("%" ++ "50%_\" ++ "%") <> None
  /\ exists rs lg',
       serve sample_parses Js.lower None 300 "" (GetLinks (Some " 50%_\ "))
         (idle two_links) =
       (Json 200 (JLinks (map (shape None) rs)), mkState two_links None [] lg')
       /\ (forall r, In r rs -> In r two_links)
       /\ Sorted newer_first rs.
Proof.
  apply (listing_never_fails sample_parses Js.lower None 300 ""
           (Some " 50%_\ ") two_links []).
  reflexivity.
Defined.

Lemma form_submission_accepted_run :
  (exists l,
     fst (serve sample_parses Js.lower None 300 "Zz12345"
            (PostLinks (body_of "a.com" None)) (idle two_links)) =
     Json 201 (JLink l))
  \/ fst (serve sample_parses Js.lower None 300 "Zz12345"
            (PostLinks (body_of "a.com" None)) (idle two_links)) =
     Json 409 (JError "Code already exists")
  \/ fst (serve sample_parses Js.lower None 300 "Zz12345"
            (PostLinks (body_of "a.com" None)) (idle two_links)) =
     Json 500 (JError "Internal server error").
Proof.
  apply (form_submission_accepted sample_parses Js.lower None 300 " a.com " "  "
           "Zz12345" (body_of "a.com" None) two_links [] []);
    reflexivity.
Defined.

Lemma requests_keep_store_sound_run :
  wf_table
    (committed
       (snd (serve_seq sample_parses Js.lower None
               [(300, "Zz12345", PostLinks (body_of "a.com" None));
                (400, "", GetCode "Zz12345");
                (500, "", DeleteLink "abc123")]
               (idle two_links)))) = true.
Proof.
  apply (proj1 (requests_keep_store_sound sample_parses Js.lower None
                  [(300, "Zz12345", PostLinks (body_of "a.com" None));
                   (400, "", GetCode "Zz12345");
                   (500, "", DeleteLink "abc123")]
                  two_links [] eq_refl eq_refl)).
Defined.

Lemma redirects_add_up_run :
  fst (serve_seq sample_parses Js.lower None
         (map (fun t => (t, "", GetCode "Zed4567")) [300; 400; 500])
         (idle two_links)) =
  map (fun _ => Redirect 302 "https://example.com") [300; 400; 500].
Proof.
  refine (proj1 (redirects_add_up sample_parses Js.lower None "" [300; 400; 500]
                   two_links link_b [] _ _ _)).
  - reflexivity.
  - simpl. auto.
  - discriminate.
Defined.

End MoreRuns.
